(** * Supabase read-only MCP server: request handling of the two transports

    A shallow embedding of [src/index.js]: the JSON-RPC STDIO daemon (the
    method table, [handleJsonRpc], the [data] callback of [process.stdin])
    and the Express server (the routes [/api/tables/:projectId] and
    [/api/data/:projectId/:tableName]).

    Conventions of the embedding.
    - The JavaScript numbers the handlers compute with ([limit], [page],
      [offset], [count]) are doubles that hold integers; they are modelled
      by [Z].  What [parseInt] reads and what [page * limit] and
      [offset + limit - 1] give is rounded to the nearest double
      ([Js.to_double]), and a number is printed as [Number::toString] prints
      it ([Js.Number_toString]).  [NaN] is [None]; the infinities, which
      take an integer of more than 308 digits, have no counterpart.
    - JavaScript strings are modelled by [string], that is restricted to
      code units below 256.
    - An [async] function is a computation that appends what it does (the
      queries it awaits, the lines it writes) to a trace and completes
      normally or by throwing.
    - The Supabase client, [jsonrpc.parse], the properties [methods]
      inherits from [Object.prototype] and the clock are external to the
      repository: the handlers take them as section variables.  Module
      [MemDb] gives a reference client, over an in-memory database, to state
      what the handlers return for a given content of the database.
    - The [data] callback is modelled twice: run to completion ([on_data],
      [on_chunks]), and as invocations that are suspended at their [await]
      while further chunks are delivered ([deliver], [resume]). *)

From Stdlib Require Import ZArith QArith Qround Bool List Lia.
From Stdlib Require Import Strings.String Strings.Ascii Numbers.DecimalString.
From Stdlib Require Numbers.DecimalPos.
From Stdlib Require Import Sorting.Sorted Sorting.Permutation.
Import ListNotations.

Set Warnings "-register-all".

Local Open Scope string_scope.
Local Open Scope Z_scope.

(* ================================================================== *)
(** ** JavaScript values and the built-ins the handlers call *)
(* ================================================================== *)

Module Js.

(** Values that reach the handlers: parsed JSON, Express query values and
    rows returned by the client.  [Num n] is the number that the integer
    literal [n] denotes, that is the double nearest to [n].  A number that is
    not an integer is kept as the text [Number::toString] prints for it
    (["2.5"], ["1e-7"]), which is all the handlers take from it. *)
Inductive Value : Type :=
| Undefined
| Null
| Bool (b : bool)
| Num (n : Z)
| Frac (text : string)
| Str (s : string)
| Arr (elements : list Value)
| Obj (properties : list (string * Value)).

(** The decimal digits of an integer, with its sign. *)
Definition Z_to_string (n : Z) : string :=
  NilZero.string_of_int (Z.to_int n).

(** 2^53: up to it, in absolute value, every integer is a double. *)
Definition two53 : Z := 9007199254740992.

(** The double nearest to an integer, ties to the even significand: above
    2^53 an integer of [e + 53] bits is a multiple of [2 ^ e]. *)
Definition to_double (n : Z) : Z :=
  let a := Z.abs n in
  if a <=? two53 then n
  else
    let q := 2 ^ (Z.log2 a - 52) in
    let m := a / q in
    let r := a mod q in
    let m' :=
      if (q <? 2 * r) || ((q =? 2 * r) && Z.odd m) then m + 1 else m in
    Z.sgn n * (m' * q).

(** [a * b], [a + b] and [a - b] on numbers. *)
Definition mul (a b : Z) : Z := to_double (a * b).
Definition add (a b : Z) : Z := to_double (a + b).
Definition sub (a b : Z) : Z := to_double (a - b).

Definition digit_count (n : Z) : nat := String.length (Z_to_string (Z.abs n)).

(** The multiple of [10 ^ p] that [Number::toString] would print for the
    double [v], if one of the two that enclose [v] reads back as [v]: the one
    nearer to [v], the even one when they are as near. *)
Definition candidate (v : Z) (p : nat) : option Z :=
  let unit := 10 ^ Z.of_nat p in
  let low := v / unit * unit in
  let high := low + unit in
  let low_ok := (0 <? low) && (to_double low =? v) in
  let high_ok := to_double high =? v in
  if low_ok && high_ok then
    if v - low <? high - v then Some low
    else if high - v <? v - low then Some high
    else if Z.even (low / unit) then Some low else Some high
  else if low_ok then Some low
  else if high_ok then Some high
  else None.

(** The integer with the fewest significant digits that reads back as the
    double [v], and the number of zeros it ends with: the candidates are
    tried from [10 ^ p] down. *)
Fixpoint shortest (v : Z) (p : nat) : Z * nat :=
  match p with
  | O => (v, O)
  | S p' =>
      match candidate v p with
      | Some c => (c, p)
      | None => shortest v p'
      end
  end.

(** [d.ddde+n]: the significant digits of [c], which ends with [p] zeros. *)
Definition exponent_form (c : Z) (p : nat) : string :=
  let digits := Z_to_string (c / 10 ^ Z.of_nat p) in
  let exponent := Z_to_string (Z.of_nat (digit_count c) - 1) in
  match digits with
  | String d EmptyString => String d ("e+" ++ exponent)
  | String d rest => String d ("." ++ rest ++ "e+" ++ exponent)
  | EmptyString => EmptyString
  end.

(** [Number::toString] on a double that holds an integer: up to 2^53 its
    digits; above, the fewest digits that read back as the same double,
    followed by zeros below 10^21 and in exponent form from 10^21 on. *)
Definition Number_toString (v : Z) : string :=
  let a := Z.abs v in
  let unsigned :=
    if a <=? two53 then Z_to_string a
    else
      let '(c, p) := shortest a (digit_count a) in
      if (digit_count c <=? 21)%nat then Z_to_string c
      else exponent_form c p in
  if v <? 0 then "-" ++ unsigned else unsigned.

(** [Array.prototype.join]: [undefined] and [null] elements print as the
    empty string. *)
Definition join_with (sep : string) (render : Value -> string)
  : list Value -> string :=
  fix go (l : list Value) : string :=
    match l with
    | [] => ""
    | [v] => render v
    | v :: rest => render v ++ sep ++ go rest
    end.

(** The abstract operation ToString. *)
Fixpoint ToString (v : Value) : string :=
  match v with
  | Undefined => "undefined"
  | Null => "null"
  | Bool true => "true"
  | Bool false => "false"
  | Num n => Number_toString (to_double n)
  | Frac text => text
  | Str s => s
  | Arr l =>
      join_with ","
        (fun e => match e with
                  | Undefined | Null => ""
                  | _ => ToString e
                  end) l
  | Obj _ => "[object Object]"
  end.

(** The abstract operation ToBoolean. *)
Definition ToBoolean (v : Value) : bool :=
  match v with
  | Undefined | Null => false
  | Bool b => b
  | Num n => negb (n =? 0)
  | Frac _ => true
  | Str s => negb (s =? "")%string
  | Arr _ | Obj _ => true
  end.

(** [a || b] on values. *)
Definition or (a b : Value) : Value := if ToBoolean a then a else b.

(** Own property of an object created by [JSON.parse] or by Express. *)
Fixpoint lookup (k : string) (props : list (string * Value)) : Value :=
  match props with
  | [] => Undefined
  | (k', v) :: rest => if (k =? k')%string then v else lookup k rest
  end.

(** [v.k] where [v] is neither [undefined] nor [null]: the properties the
    handlers read ([limit], [page], [project_id], [table_name],
    [table_schema]) exist only on plain objects. *)
Definition get (v : Value) (k : string) : Value :=
  match v with
  | Obj props => lookup k props
  | _ => Undefined
  end.

(** The line feed, ['\n']. *)
Definition LF : string := String "010" "".

(** WhiteSpace and LineTerminator code units below 256. *)
Definition isWhiteSpace (c : ascii) : bool :=
  let n := nat_of_ascii c in
  ((n =? 9) || (n =? 10) || (n =? 11) || (n =? 12) || (n =? 13)
   || (n =? 32) || (n =? 160))%nat.

Fixpoint trimStart (s : string) : string :=
  match s with
  | String c rest => if isWhiteSpace c then trimStart rest else s
  | EmptyString => EmptyString
  end.

Fixpoint trimEnd (s : string) : string :=
  match s with
  | EmptyString => EmptyString
  | String c rest =>
      match trimEnd rest with
      | EmptyString => if isWhiteSpace c then EmptyString
                       else String c EmptyString
      | rest' => String c rest'
      end
  end.

(** [String.prototype.trim]. *)
Definition trim (s : string) : string := trimEnd (trimStart s).

(** [s.split(sep)] for a one-character separator: never empty, the last
    element is what follows the last separator. *)
Fixpoint split (sep : ascii) (s : string) : list string :=
  match s with
  | EmptyString => [EmptyString]
  | String c rest =>
      if Ascii.eqb c sep then EmptyString :: split sep rest
      else match split sep rest with
           | [] => [String c EmptyString]
           | first :: others => String c first :: others
           end
  end.

(** Value of a digit in radix 10 or 16. *)
Definition digitValue (radix : Z) (c : ascii) : option Z :=
  let n := Z.of_nat (nat_of_ascii c) in
  if (48 <=? n) && (n <=? 57) then Some (n - 48)
  else if (radix =? 16) && (97 <=? n) && (n <=? 102) then Some (n - 87)
  else if (radix =? 16) && (65 <=? n) && (n <=? 70) then Some (n - 55)
  else None.

(** The longest prefix of radix-[radix] digits, read left to right:
    [None] when the prefix is empty. *)
Fixpoint digits (radix : Z) (acc : option Z) (s : string) : option Z :=
  match s with
  | EmptyString => acc
  | String c rest =>
      match digitValue radix c with
      | Some d =>
          digits radix
            (Some (match acc with Some a => a * radix + d | None => d end))
            rest
      | None => acc
      end
  end.

(** [parseInt(v)] with no radix argument: the double nearest to the integer
    that the digits denote; [None] is [NaN]. *)
Definition parseInt (v : Value) : option Z :=
  let inputString := ToString v in
  let trimmed := trimStart inputString in
  let '(sign, unsigned) :=
    match trimmed with
    | String "-" rest => (-1, rest)
    | String "+" rest => (1, rest)
    | _ => (1, trimmed)
    end in
  let '(R, body) :=
    match unsigned with
    | String "0" (String "x" rest) => (16, rest)
    | String "0" (String "X" rest) => (16, rest)
    | _ => (10, unsigned)
    end in
  match digits R None body with
  | None => None
  | Some mathInt => Some (to_double (sign * mathInt))
  end.

(** [n || d] on numbers: [NaN] and zero are falsy. *)
Definition or_num (n : option Z) (d : Z) : Z :=
  match n with
  | Some z => if z =? 0 then d else z
  | None => d
  end.

(** [a / b] on integers: the exact quotient, [None] when the result is not
    finite (division by zero). *)
Definition div (a b : Z) : option Q :=
  if b =? 0 then None else Some (inject_Z a / inject_Z b)%Q.

(** [Math.ceil]. *)
Definition Math_ceil (x : option Q) : option Z :=
  match x with
  | Some q => Some (Qceiling q)
  | None => None
  end.

(** ToNumber on a row count that may be [null]. *)
Definition count_to_number (count : option Z) : Z :=
  match count with Some c => c | None => 0 end.

(** Completion of an evaluation: a value, or a thrown exception, of which
    only the message is ever read.  An [Error] has a string for message.  An
    error object that the client resolved with may have none: where a handler
    throws one, the message is given as the [catch] it is thrown to reads it
    (see [message_text] and [message_or_null]). *)
Inductive Completion (A : Type) : Type :=
| Normal (a : A)
| Throw (message : string).
Arguments Normal {A} a.
Arguments Throw {A} message.

(** The [message] member of an error object: a string, [null], or no such
    member. *)
Inductive Message : Type :=
| Text (s : string)
| NullMessage
| NoMessage.

(** [`${error.message}`]. *)
Definition message_text (m : Message) : string :=
  match m with
  | Text s => s
  | NullMessage => "null"
  | NoMessage => "undefined"
  end.

(** [error.message] passed for a parameter declared [message = null]: the
    default replaces [undefined]. *)
Definition message_or_null (m : Message) : option string :=
  match m with
  | Text s => Some s
  | NullMessage | NoMessage => None
  end.

Definition is_nullish (v : Value) : bool :=
  match v with
  | Undefined | Null => true
  | _ => false
  end.

(** [v.k] in general: reading a property of [undefined] or [null] throws a
    TypeError. *)
Definition member (v : Value) (k : string) : Completion Value :=
  match v with
  | Undefined =>
      Throw ("Cannot read properties of undefined (reading '" ++ k ++ "')")
  | Null =>
      Throw ("Cannot read properties of null (reading '" ++ k ++ "')")
  | _ => Normal (get v k)
  end.

End Js.

Notation "x |> f" := (f x) (at level 45, left associativity, only parsing).

(* ================================================================== *)
(** ** The query builder of the Supabase client *)
(* ================================================================== *)

Module Supabase.

Inductive Filter : Type :=
| Eq (column value : string)
| Neq (column value : string).

(** What a builder chain has accumulated when it is awaited. *)
Record Query : Type := mkQuery {
  relation : string;
  columns : string;
  count_mode : option string;
  filters : list Filter;
  order_by : option string;
  row_range : option (Z * Z);
  is_single : bool
}.

Definition from (relation : string) : Query :=
  mkQuery relation "*" None [] None None false.

Definition select (columns : string) (q : Query) : Query :=
  mkQuery (relation q) columns None (filters q) (order_by q) (row_range q)
    (is_single q).

(** [select(columns, { count })]. *)
Definition select_count (columns count : string) (q : Query) : Query :=
  mkQuery (relation q) columns (Some count) (filters q) (order_by q)
    (row_range q) (is_single q).

Definition eq (column value : string) (q : Query) : Query :=
  mkQuery (relation q) (columns q) (count_mode q)
    (filters q ++ [Eq column value])%list (order_by q) (row_range q) (is_single q).

Definition neq (column value : string) (q : Query) : Query :=
  mkQuery (relation q) (columns q) (count_mode q)
    (filters q ++ [Neq column value])%list (order_by q) (row_range q) (is_single q).

Definition order (column : string) (q : Query) : Query :=
  mkQuery (relation q) (columns q) (count_mode q) (filters q) (Some column)
    (row_range q) (is_single q).

(** [range(from, to)]: both bounds inclusive. *)
Definition range (from to : Z) (q : Query) : Query :=
  mkQuery (relation q) (columns q) (count_mode q) (filters q) (order_by q)
    (Some (from, to)) (is_single q).

Definition single (q : Query) : Query :=
  mkQuery (relation q) (columns q) (count_mode q) (filters q) (order_by q)
    (row_range q) true.

(** The [error] of a response: of its members the handlers read
    [message]. *)
Record PostgrestError : Type := mkError {
  message : Js.Message;
  code : string
}.

(** The object an awaited query resolves to: [{ data, error, count }]. *)
Record Response : Type := mkResponse {
  data : Js.Value;
  error : option PostgrestError;
  count : option Z
}.

(** An awaited query resolves, or the promise rejects. *)
Inductive Outcome : Type :=
| Resolved (r : Response)
| Rejected (message : string).

(** A client created by [createClient]. *)
Definition Client : Type := Query -> Outcome.

(** The contract of [range(from, to)] on a query that returns an array: at
    most [to - from + 1] rows. *)
Definition honours_range (client : Client) : Prop :=
  forall q from to r rows,
    row_range q = Some (from, to) ->
    is_single q = false ->
    client q = Resolved r ->
    error r = None ->
    data r = Js.Arr rows ->
    Z.of_nat (List.length rows) <= Z.max 0 (to - from + 1).

End Supabase.

(* ================================================================== *)
(** ** Payloads and JSON-RPC objects *)
(* ================================================================== *)

Module Data.

(** One element of [tables]: [{ schema, name }]. *)
Record TableRef : Type := mkTableRef {
  schema : Js.Value;
  name : Js.Value
}.

(** [pagination: { total, page, limit, pages }]. *)
Record Pagination : Type := mkPagination {
  total : option Z;
  page : Z;
  limit : Z;
  pages : option Z
}.

(** A descriptor of the [tools] array. *)
Record Tool : Type := mkTool {
  tool_name : string;
  description : string;
  properties : list (string * (string * string));
  required : list string
}.

Inductive Payload : Type :=
| ToolList (tools : list Tool)
| TableList (tables : list TableRef)
| TablePage (rows : Js.Value) (pagination : Pagination)
| Plain (v : Js.Value).

End Data.

Module JsonRpc.

(** [JsonRpcError]: [{ message, code, data }]. *)
Record Error : Type := mkError {
  message : string;
  code : Z;
  data : string
}.

Definition invalidRequest (data : string) : Error :=
  mkError "Invalid request" (-32600) data.
Definition methodNotFound (data : string) : Error :=
  mkError "Method not found" (-32601) data.
Definition internalError (data : string) : Error :=
  mkError "Internal error" (-32603) data.
Definition parseError (data : string) : Error :=
  mkError "Parse error" (-32700) data.

(** The objects built by [jsonrpc.success] and [jsonrpc.error]. *)
Inductive Response : Type :=
| success (id : Js.Value) (result : Data.Payload)
| error (id : Js.Value) (err : Error).

(** Payload of a parsed request. *)
Record Request : Type := mkRequest {
  method : string;
  params : Js.Value;
  id : Js.Value
}.

(** What [jsonrpc.parse] returns, by the [type] field the handler tests:
    ['request'], ['invalid'], or anything else (['notification'],
    ['success'], ['error'], or no [type] at all for a batch). *)
Inductive Parsed : Type :=
| request (payload : Request)
| invalid (payload : Error)
| other.

(** The [id] member of a response. *)
Definition id_of (r : Response) : Js.Value :=
  match r with
  | success id _ => id
  | error id _ => id
  end.

(** The [error.code] member of a response, when it is an error. *)
Definition code_of (r : Response) : option Z :=
  match r with
  | success _ _ => None
  | error _ e => Some (code e)
  end.

End JsonRpc.

(* ================================================================== *)
(** ** Asynchronous computations *)
(* ================================================================== *)

Module Async.

(** What a handler does to the outside: a query awaited on the client, or
    one response line written to [process.stdout]. *)
Inductive Event : Type :=
| Queried (q : Supabase.Query)
| Wrote (response : JsonRpc.Response).

Definition t (A : Type) : Type :=
  list Event -> list Event * Js.Completion A.

Definition ret {A} (a : A) : t A := fun tr => (tr, Js.Normal a).

Definition throw {A} (message : string) : t A :=
  fun tr => (tr, Js.Throw message).

Definition bind {A B} (m : t A) (k : A -> t B) : t B :=
  fun tr =>
    match m tr with
    | (tr', Js.Normal a) => k a tr'
    | (tr', Js.Throw message) => (tr', Js.Throw message)
    end.

(** [try { m } catch (error) { handler(error.message) }]. *)
Definition try_catch {A} (m : t A) (handler : string -> t A) : t A :=
  fun tr =>
    match m tr with
    | (tr', Js.Normal a) => (tr', Js.Normal a)
    | (tr', Js.Throw message) => handler message tr'
    end.

Definition lift {A} (c : Js.Completion A) : t A := fun tr => (tr, c).

(** [await] of a builder chain on a client. *)
Definition await (client : Supabase.Client) (q : Supabase.Query)
  : t Supabase.Response :=
  fun tr =>
    ((tr ++ [Queried q])%list,
     match client q with
     | Supabase.Resolved r => Js.Normal r
     | Supabase.Rejected message => Js.Throw message
     end).

(** [process.stdout.write(JSON.stringify(response) + '\n')]. *)
Definition write (response : JsonRpc.Response) : t unit :=
  fun tr => ((tr ++ [Wrote response])%list, Js.Normal tt).

(** Running a computation from an empty trace. *)
Definition run {A} (m : t A) : list Event * Js.Completion A := m [].

Definition queries (tr : list Event) : list Supabase.Query :=
  flat_map (fun e => match e with Queried q => [q] | Wrote _ => [] end) tr.

Definition written (tr : list Event) : list JsonRpc.Response :=
  flat_map (fun e => match e with Wrote r => [r] | Queried _ => [] end) tr.

(** A computation that only awaits queries: it appends them to the trace,
    and which queries it awaits and how it completes do not depend on the
    trace it starts from. *)
Definition queries_only {A} (m : t A) : Prop :=
  exists qs c, forall tr, m tr = ((tr ++ map Queried qs)%list, c).

End Async.

Notation "x <- m ;; k" := (Async.bind m (fun x => k))
  (at level 61, m at next level, right associativity).

(* ================================================================== *)
(** ** Code shared by the two entry points *)
(* ================================================================== *)

Module Shared.

Import Supabase.

(** The metadata query of both list-tables handlers. *)
Definition tables_query : Query :=
  from "information_schema.tables"
  |> select "table_schema, table_name"
  |> eq "table_schema" "public"
  |> neq "table_name" "pg_stat_statements"
  |> order "table_name".

(** The existence check of both data handlers. *)
Definition table_check_query (table_name : string) : Query :=
  from "information_schema.tables"
  |> select "table_name"
  |> eq "table_schema" "public"
  |> eq "table_name" table_name
  |> single.

(** The paginated fetch of both data handlers:
    [range(offset, offset + limit - 1)] in the arithmetic of numbers. *)
Definition fetch_query (table_name : string) (offset limit : Z) : Query :=
  from table_name
  |> select_count "*" "exact"
  |> range offset (Js.sub (Js.add offset limit) 1).

(** The query for the rows at positions [offset] to [offset + limit - 1].
    It is the paginated fetch as long as the sums of the handlers are exact
    (lemma [fetch_query_exact]). *)
Definition data_query (table_name : string) (offset limit : Z) : Query :=
  from table_name
  |> select_count "*" "exact"
  |> range offset (offset + limit - 1).

(** [rows.map(f)] where [f] may throw. *)
Fixpoint map_rows {B} (f : Js.Value -> Js.Completion B) (rows : list Js.Value)
  : Js.Completion (list B) :=
  match rows with
  | [] => Js.Normal []
  | row :: rest =>
      match f row with
      | Js.Throw m => Js.Throw m
      | Js.Normal b =>
          match map_rows f rest with
          | Js.Throw m => Js.Throw m
          | Js.Normal bs => Js.Normal (b :: bs)
          end
      end
  end.

(** [table => ({ schema: table.table_schema, name: table.table_name })]. *)
Definition table_ref (table : Js.Value) : Js.Completion Data.TableRef :=
  match Js.member table "table_schema" with
  | Js.Throw m => Js.Throw m
  | Js.Normal s =>
      match Js.member table "table_name" with
      | Js.Throw m => Js.Throw m
      | Js.Normal n => Js.Normal (Data.mkTableRef s n)
      end
  end.

(** [data.map(table => ...)]: only an array has [map]. *)
Definition table_refs (data : Js.Value) : Js.Completion (list Data.TableRef) :=
  match data with
  | Js.Arr rows => map_rows table_ref rows
  | Js.Undefined =>
      Js.Throw "Cannot read properties of undefined (reading 'map')"
  | Js.Null => Js.Throw "Cannot read properties of null (reading 'map')"
  | _ => Js.Throw "data.map is not a function"
  end.

(** [const limit = parseInt(raw) || 10]. *)
Definition limit_of (raw : Js.Value) : Z := Js.or_num (Js.parseInt raw) 10.

(** [const page = parseInt(raw) || 0]. *)
Definition page_of (raw : Js.Value) : Z := Js.or_num (Js.parseInt raw) 0.

(** The [pagination] object of both data handlers. *)
Definition pagination (count : option Z) (page limit : Z) : Data.Pagination :=
  Data.mkPagination count page limit
    (Js.Math_ceil (Js.div (Js.count_to_number count) limit)).

(** [tableError || !tableCheck]. *)
Definition check_failed (r : Response) : bool :=
  match error r with
  | Some _ => true
  | None => negb (Js.ToBoolean (data r))
  end.

End Shared.

(* ================================================================== *)
(** ** The JSON-RPC STDIO daemon *)
(* ================================================================== *)

Module Daemon.

Import Supabase Shared.

Definition tools : list Data.Tool :=
  [ Data.mkTool "list_tables" "Lists all tables in the public schema"
      [("project_id", ("string", "Project ID"))]
      ["project_id"];
    Data.mkTool "get_table_data"
      "Fetches data from a specific table with pagination"
      [("project_id", ("string", "Project ID"));
       ("table_name", ("string", "Name of the table to fetch data from"));
       ("limit", ("number", "Number of rows to return (default: 10)"));
       ("page", ("number", "Page number (default: 0)"))]
      ["project_id"; "table_name"] ].

Definition not_initialized : string :=
  "Supabase client not initialized. Please set SUPABASE_URL and SUPABASE_ANON_KEY environment variables.".

Section Process.

(** The content of [.mcp.json], or the initial [{ org_id: '', project_id: '' }]. *)
Variable mcpConfig : Js.Value.
(** [null] unless both credentials are set. *)
Variable supabase : option Client.
(** [jsonrpc.parse] of jsonrpc-lite.  It reports a text that is not JSON by
    an object of type ['invalid']; the dispatcher calls it inside a [try],
    and the type leaves room for a parser that throws. *)
Variable parse : string -> Js.Completion JsonRpc.Parsed.
(** Calling the property [name] that [methods] inherits from
    [Object.prototype]; [None] when there is no such property. *)
Variable inherited : string -> option (Js.Value -> Js.Completion Js.Value).

(** [params.project_id || mcpConfig.project_id]. *)
Definition project_id_of (params : Js.Value) : Async.t Js.Value :=
  let own := Js.get params "project_id" in
  if Js.ToBoolean own then Async.ret own
  else Async.lift (Js.member mcpConfig "project_id").

Definition listTools (params : Js.Value) : Async.t Data.Payload :=
  Async.ret (Data.ToolList tools).

Definition list_tables (params : Js.Value) : Async.t Data.Payload :=
  projectId <- project_id_of params ;;
  match supabase with
  | None => Async.throw not_initialized
  | Some client =>
      Async.try_catch
        (r <- Async.await client tables_query ;;
         match error r with
         | Some e => Async.throw (Js.message_text (message e))
         | None =>
             tables <- Async.lift (table_refs (data r)) ;;
             Async.ret (Data.TableList tables)
         end)
        (fun msg => Async.throw ("Error listing tables: " ++ msg))
  end.

Definition get_table_data (params : Js.Value) : Async.t Data.Payload :=
  let table_name := Js.ToString (Js.get params "table_name") in
  projectId <- project_id_of params ;;
  let limit := limit_of (Js.get params "limit") in
  let page := page_of (Js.get params "page") in
  let offset := Js.mul page limit in
  match supabase with
  | None => Async.throw not_initialized
  | Some client =>
      Async.try_catch
        (tableCheck <- Async.await client (table_check_query table_name) ;;
         if check_failed tableCheck
         then Async.throw ("Table '" ++ table_name ++ "' not found")
         else
           r <- Async.await client (fetch_query table_name offset limit) ;;
           match error r with
           | Some e => Async.throw (Js.message_text (message e))
           | None =>
               Async.ret
                 (Data.TablePage (data r) (pagination (count r) page limit))
           end)
        (fun msg =>
           Async.throw ("Error fetching data from table " ++ table_name
                        ++ ": " ++ msg))
  end.

(** [methods[method]]. *)
Definition methods (method : string)
  : option (Js.Value -> Async.t Data.Payload) :=
  if (method =? "listTools")%string then Some listTools
  else if (method =? "list_tables")%string then Some list_tables
  else if (method =? "get_table_data")%string then Some get_table_data
  else match inherited method with
       | Some f =>
           Some (fun params =>
                   v <- Async.lift (f params) ;; Async.ret (Data.Plain v))
       | None => None
       end.

Definition handleJsonRpc (message : string) : Async.t JsonRpc.Response :=
  Async.try_catch
    (parsed <- Async.lift (parse message) ;;
     match parsed with
     | JsonRpc.invalid payload =>
         Async.ret
           (JsonRpc.error Js.Null
              (JsonRpc.invalidRequest (JsonRpc.message payload)))
     | JsonRpc.other =>
         Async.ret
           (JsonRpc.error Js.Null
              (JsonRpc.invalidRequest "Expected a JSON-RPC request"))
     | JsonRpc.request payload =>
         let method := JsonRpc.method payload in
         let params := JsonRpc.params payload in
         let id := JsonRpc.id payload in
         match methods method with
         | None =>
             Async.ret
               (JsonRpc.error id
                  (JsonRpc.methodNotFound
                     ("Method '" ++ method ++ "' not found")))
         | Some implementation =>
             Async.try_catch
               (result <- implementation (Js.or params (Js.Obj [])) ;;
                Async.ret (JsonRpc.success id result))
               (fun msg =>
                  Async.ret (JsonRpc.error id (JsonRpc.internalError msg)))
         end
     end)
    (fun msg => Async.ret (JsonRpc.error Js.Null (JsonRpc.parseError msg))).

(** The body of [if (line) { ... }]: the response is awaited, then one line
    is written. *)
Definition answer (line : string) : Async.t unit :=
  response <- handleJsonRpc line ;;
  Async.write response.

(** The [for] loop over [lines[0 .. lines.length - 2]]. *)
Fixpoint process_lines (lines : list string) : Async.t unit :=
  match lines with
  | [] => Async.ret tt
  | raw :: rest =>
      match rest with
      | [] => Async.ret tt
      | _ :: _ =>
          let line := Js.trim raw in
          if (line =? "")%string then process_lines rest
          else
            _ <- answer line ;;
            process_lines rest
      end
  end.

(** The [data] callback of [process.stdin], run to completion: from the
    value of [inputBuffer] to its new value. *)
Definition on_data (inputBuffer chunk : string) : Async.t string :=
  let inputBuffer := inputBuffer ++ chunk in
  Async.try_catch
    (let lines := Js.split "010" inputBuffer in
     _ <- process_lines lines ;;
     Async.ret (last lines ""))
    (fun msg =>
       _ <- Async.write (JsonRpc.error Js.Null (JsonRpc.internalError msg)) ;;
       Async.ret inputBuffer).

(** The callback on a sequence of chunks, each invocation completing before
    the next chunk is delivered. *)
Fixpoint on_chunks (inputBuffer : string) (chunks : list string)
  : Async.t string :=
  match chunks with
  | [] => Async.ret inputBuffer
  | chunk :: rest =>
      inputBuffer' <- on_data inputBuffer chunk ;;
      on_chunks inputBuffer' rest
  end.

(** *** The callback under re-entrancy

    The callback is [async]: at [await handleJsonRpc(line)] it is suspended
    and a further chunk may be delivered before it resumes.  An invocation
    suspended at the await holds the line whose response it awaits and the
    rest of its own [lines] array; [inputBuffer] is shared and is assigned
    only when an invocation ends.  One step of a suspended invocation takes
    it from one await to the next, or to its end; what the awaited
    dispatcher did is recorded in the log when the invocation resumes. *)

Record Invocation : Type := mkInvocation {
  awaited : string;
  remaining : list string
}.

Record State : Type := mkState {
  buffer : string;
  log : list Async.Event;
  suspended : list Invocation
}.

(** The loop from [lines[i]] on, up to the next await or to the end of the
    loop, where the last part is to be assigned to [inputBuffer]. *)
Fixpoint advance (lines : list string) : Invocation + string :=
  match lines with
  | [] => inr ""
  | raw :: rest =>
      match rest with
      | [] => inr raw
      | _ :: _ =>
          let line := Js.trim raw in
          if (line =? "")%string then advance rest
          else inl (mkInvocation line rest)
      end
  end.

(** A chunk is delivered: the callback runs up to its first await. *)
Definition deliver (chunk : string) (s : State) : State :=
  let inputBuffer := buffer s ++ chunk in
  match advance (Js.split "010" inputBuffer) with
  | inr fragment => mkState fragment (log s) (suspended s)
  | inl invocation =>
      mkState inputBuffer (log s) (suspended s ++ [invocation])%list
  end.

Fixpoint remove_nth {A} (k : nat) (l : list A) : list A :=
  match l, k with
  | [], _ => []
  | _ :: rest, O => rest
  | x :: rest, S k' => x :: remove_nth k' rest
  end.

Fixpoint replace_nth {A} (k : nat) (a : A) (l : list A) : list A :=
  match l, k with
  | [], _ => []
  | _ :: rest, O => a :: rest
  | x :: rest, S k' => x :: replace_nth k' a rest
  end.

(** The [k]-th suspended invocation resumes: the response it awaits is
    written and its loop goes on. *)
Definition resume (k : nat) (s : State) : State :=
  match nth_error (suspended s) k with
  | None => s
  | Some invocation =>
      match answer (awaited invocation) (log s) with
      | (tr, Js.Normal _) =>
          match advance (remaining invocation) with
          | inr fragment => mkState fragment tr (remove_nth k (suspended s))
          | inl next =>
              mkState (buffer s) tr (replace_nth k next (suspended s))
          end
      | (tr, Js.Throw msg) =>
          mkState (buffer s)
            (fst (Async.write
                    (JsonRpc.error Js.Null (JsonRpc.internalError msg)) tr))
            (remove_nth k (suspended s))
      end
  end.

Inductive Action : Type :=
| Deliver (chunk : string)
| Resume (k : nat).

Definition step (s : State) (a : Action) : State :=
  match a with
  | Deliver chunk => deliver chunk s
  | Resume k => resume k s
  end.

Definition schedule (actions : list Action) (s : State) : State :=
  fold_left step actions s.

(** The only suspended invocation resumes until it ends. *)
Fixpoint settle (fuel : nat) (s : State) : State :=
  match fuel with
  | O => s
  | S fuel' =>
      match suspended s with
      | [] => s
      | _ :: _ => settle fuel' (resume 0 s)
      end
  end.

Definition initial : State := mkState "" [] [].

End Process.

End Daemon.

(* ================================================================== *)
(** ** The Express server *)
(* ================================================================== *)

Module Server.

Import Supabase Shared.

Record Envelope : Type := mkEnvelope {
  success : bool;
  data : option Data.Payload;
  message : option string;
  timestamp : string
}.

(** What [res.status(code).json(body)] sends. *)
Record Reply : Type := mkReply {
  status : Z;
  body : Envelope
}.

(** [req] of [/api/tables/:projectId]. *)
Record TablesRequest : Type := mkTablesRequest {
  tables_projectId : string
}.

(** [req] of [/api/data/:projectId/:tableName]: [req.params] and
    [req.query]. *)
Record DataRequest : Type := mkDataRequest {
  projectId : string;
  tableName : string;
  query : Js.Value
}.

Section Routes.

Variable supabase : Client.
(** [new Date().toISOString()] at the time of the reply. *)
Variable now : string.

Definition formatResponse (success : bool) (data : option Data.Payload)
    (message : option string) (statusCode : Z) : Envelope :=
  mkEnvelope success data message now.

(** [res.json(body)]. *)
Definition json (body : Envelope) : Reply := mkReply 200 body.

(** [app.get('/')]. *)
Definition route_root : Async.t Reply :=
  Async.ret
    (json (formatResponse true None (Some "Supabase Read-Only MCP Server") 200)).

(** [res.status(500).json(formatResponse(false, null, error.message, 500))]
    in the [catch] of a route, for a caught [Error]. *)
Definition failure_reply (msg : string) : Reply :=
  mkReply 500 (formatResponse false None (Some msg) 500).

(** The same reply for a caught error object of the client: without a
    [message] member, or with [null] for it, the envelope holds [null]. *)
Definition error_reply (e : PostgrestError) : Reply :=
  mkReply 500
    (formatResponse false None (Js.message_or_null (Supabase.message e)) 500).

(** [res.status(404).json(formatResponse(false, null, `Table '${tableName}' not found`, 404))]. *)
Definition not_found_reply (tableName : string) : Reply :=
  mkReply 404
    (formatResponse false None
       (Some ("Table '" ++ tableName ++ "' not found")) 404).

(** [res.json(formatResponse(true, { tables }))]. *)
Definition tables_reply (tables : list Data.TableRef) : Reply :=
  json (formatResponse true (Some (Data.TableList tables)) None 200).

(** [res.json(formatResponse(true, { rows: data, pagination: {...} }))]. *)
Definition page_reply (r : Response) (page limit : Z) : Reply :=
  json
    (formatResponse true
       (Some (Data.TablePage (Supabase.data r)
                (pagination (count r) page limit)))
       None 200).

(** [app.get('/api/tables/:projectId')].  [if (error) throw error] is
    caught by the [catch] of the route, which replies with [error.message]:
    that reply is given where the error is thrown. *)
Definition route_tables (req : TablesRequest) : Async.t Reply :=
  Async.try_catch
    (r <- Async.await supabase tables_query ;;
     match error r with
     | Some e => Async.ret (error_reply e)
     | None =>
         tables <- Async.lift (table_refs (Supabase.data r)) ;;
         Async.ret (tables_reply tables)
     end)
    (fun msg => Async.ret (failure_reply msg)).

(** [app.get('/api/data/:projectId/:tableName')]. *)
Definition route_data (req : DataRequest) : Async.t Reply :=
  Async.try_catch
    (let tableName := tableName req in
     let limit := limit_of (Js.get (query req) "limit") in
     let page := page_of (Js.get (query req) "page") in
     let offset := Js.mul page limit in
     tableCheck <- Async.await supabase (table_check_query tableName) ;;
     if check_failed tableCheck
     then Async.ret (not_found_reply tableName)
     else
       r <- Async.await supabase (fetch_query tableName offset limit) ;;
       match error r with
       | Some e => Async.ret (error_reply e)
       | None => Async.ret (page_reply r page limit)
       end)
    (fun msg => Async.ret (failure_reply msg)).

(** [app.use] after the routes: any other path. *)
Definition route_fallback : Async.t Reply :=
  Async.ret
    (mkReply 404 (formatResponse false None (Some "Endpoint not found") 404)).

End Routes.

End Server.

(* ================================================================== *)
(** ** A reference client over an in-memory database *)
(* ================================================================== *)

(** The meaning of the queries the handlers build, as PostgREST evaluates
    them, over a catalog and a list of relations.  It is the client used to
    state what the handlers return for a given content of the database; the
    handlers themselves are defined for any client. *)

Module MemDb.

Import Supabase.

Record Database : Type := mkDatabase {
  (** [information_schema.tables]: pairs of [table_schema], [table_name]. *)
  catalog : list (string * string);
  (** The rows of each relation that can be selected from. *)
  relations : list (string * list Js.Value)
}.

Definition catalog_row (entry : string * string) : Js.Value :=
  Js.Obj [("table_schema", Js.Str (fst entry));
          ("table_name", Js.Str (snd entry))].

Fixpoint find_relation (name : string) (rels : list (string * list Js.Value))
  : option (list Js.Value) :=
  match rels with
  | [] => None
  | (n, rows) :: rest =>
      if (name =? n)%string then Some rows else find_relation name rest
  end.

Definition rows_of (db : Database) (relation : string)
  : option (list Js.Value) :=
  if (relation =? "information_schema.tables")%string
  then Some (map catalog_row (catalog db))
  else find_relation relation (relations db).

(** A comparison with a missing or null column is never true. *)
Definition column_is (row : Js.Value) (column value : string) : option bool :=
  match Js.get row column with
  | Js.Undefined | Js.Null => None
  | v => Some (Js.ToString v =? value)%string
  end.

Definition satisfies (row : Js.Value) (f : Filter) : bool :=
  match f with
  | Eq column value =>
      match column_is row column value with Some b => b | None => false end
  | Neq column value =>
      match column_is row column value with
      | Some b => negb b
      | None => false
      end
  end.

Definition keep (fs : list Filter) (rows : list Js.Value) : list Js.Value :=
  filter (fun row => forallb (satisfies row) fs) rows.

(** Ascending order on the text of a column. *)
Definition sort_key (column : string) (row : Js.Value) : string :=
  Js.ToString (Js.get row column).

Fixpoint insert_sorted (column : string) (row : Js.Value)
    (sorted : list Js.Value) : list Js.Value :=
  match sorted with
  | [] => [row]
  | r :: rest =>
      if String.leb (sort_key column row) (sort_key column r)
      then row :: sorted
      else r :: insert_sorted column row rest
  end.

Fixpoint sort_rows (column : string) (rows : list Js.Value)
  : list Js.Value :=
  match rows with
  | [] => []
  | row :: rest => insert_sorted column row (sort_rows column rest)
  end.

Definition ordered (by_column : option string) (rows : list Js.Value)
  : list Js.Value :=
  match by_column with
  | Some column => sort_rows column rows
  | None => rows
  end.

(** The selected columns of a row; ["*"] selects all of them. *)
Definition project (columns : string) (row : Js.Value) : Js.Value :=
  if (columns =? "*")%string then row
  else
    match row with
    | Js.Obj props =>
        let wanted := map Js.trim (Js.split "," columns) in
        Js.Obj
          (filter (fun kv => existsb (String.eqb (fst kv)) wanted) props)
    | _ => row
    end.

Definition unsatisfiable_range : PostgrestError :=
  mkError (Js.Text "Requested range not satisfiable") "PGRST103".

Definition not_single : PostgrestError :=
  mkError (Js.Text "JSON object requested, multiple (or no) rows returned")
    "PGRST116".

Definition no_relation : PostgrestError :=
  mkError (Js.Text "relation does not exist") "42P01".

(** [offset = from], [limit = to - from + 1]: the rows at positions
    [from .. to], or an error when the window is ill-formed or starts after
    the last row. *)
Definition window (bounds : option (Z * Z)) (rows : list Js.Value)
  : option (list Js.Value) :=
  match bounds with
  | None => Some rows
  | Some (from, to) =>
      if (from <? 0) || (to - from + 1 <? 0)
         || (Z.of_nat (List.length rows) <? from)
      then None
      else Some (firstn (Z.to_nat (to - from + 1))
                   (skipn (Z.to_nat from) rows))
  end.

Definition failed (e : PostgrestError) : Outcome :=
  Resolved (mkResponse Js.Null (Some e) None).

Definition client (db : Database) : Client :=
  fun q =>
    match rows_of db (relation q) with
    | None => failed no_relation
    | Some all =>
        let matching := ordered (order_by q) (keep (filters q) all) in
        let total :=
          match count_mode q with
          | Some _ => Some (Z.of_nat (List.length matching))
          | None => None
          end in
        match window (row_range q) matching with
        | None => failed unsatisfiable_range
        | Some rows =>
            let rows := map (project (columns q)) rows in
            if is_single q
            then match rows with
                 | [row] => Resolved (mkResponse row None total)
                 | _ => failed not_single
                 end
            else Resolved (mkResponse (Js.Arr rows) None total)
        end
    end.

(** The tables the list-tables query selects: schema [public], any name but
    [pg_stat_statements]. *)
Definition listed (entry : string * string) : bool :=
  (fst entry =? "public")%string
  && negb (snd entry =? "pg_stat_statements")%string.

(** The [{ schema, name }] pair of a catalog entry. *)
Definition entry_ref (entry : string * string) : Data.TableRef :=
  Data.mkTableRef (Js.Str (fst entry)) (Js.Str (snd entry)).

(** Ascending order of catalog entries by table name. *)
Definition name_le (a b : string * string) : Prop :=
  String.leb (snd a) (snd b) = true.

(** A client whose requests never reach the service: with the default
    settings a failed fetch is reported in [error], not thrown. *)
Definition unreachable : Client :=
  fun _ => failed (mkError (Js.Text "TypeError: fetch failed") "").

(** A client whose promises reject. *)
Definition rejecting (message : string) : Client :=
  fun _ => Rejected message.


End MemDb.

(* ================================================================== *)
(** ** Start of the two processes *)
(* ================================================================== *)

Module Startup.



(** The variable inside a template literal. *)
Definition text (v : option string) : string :=
  match v with
  | Some s => s
  | None => "undefined"
  end.

Section Start.

Variable createClient : string -> string -> Supabase.Client.




End Start.

End Startup.

(* ================================================================== *)
(** ** Sample data *)
(* ================================================================== *)

Module Sample.

Definition user (i : nat) : Js.Value := Js.Obj [("id", Js.Num (Z.of_nat i))].

(** A database whose table [users] has 25 rows. *)
Definition db : MemDb.Database :=
  MemDb.mkDatabase
    [("public", "users"); ("public", "pg_stat_statements");
     ("auth", "sessions"); ("public", "orders")]
    [("users", map user (seq 1 25)); ("orders", [])].

Definition now : string := "2024-01-01T00:00:00.000Z".

Definition mcpConfig : Js.Value :=
  Js.Obj [("org_id", Js.Str ""); ("project_id", Js.Str "")].

Definition query (limit page : string) : Js.Value :=
  Js.Obj [("limit", Js.Str limit); ("page", Js.Str page)].

Definition dq : string := String (ascii_of_nat 34) "".
Definition quoted (s : string) : string := dq ++ s ++ dq.

(** The line of a [listTools] request with id 1. *)
Definition listTools_line : string :=
  "{" ++ quoted "jsonrpc" ++ ":" ++ quoted "2.0" ++ ","
  ++ quoted "id" ++ ":1," ++ quoted "method" ++ ":" ++ quoted "listTools"
  ++ "}".

(** The line and the parsed payload of a [get_table_data] request with
    id 2 for page 2 of [users], ten rows a page. *)
Definition get_users_line (project_id : string) : string :=
  "{" ++ quoted "jsonrpc" ++ ":" ++ quoted "2.0" ++ ","
  ++ quoted "id" ++ ":2," ++ quoted "method" ++ ":" ++ quoted "get_table_data"
  ++ "," ++ quoted "params" ++ ":{" ++ quoted "project_id" ++ ":"
  ++ quoted project_id ++ "," ++ quoted "table_name" ++ ":" ++ quoted "users"
  ++ "," ++ quoted "limit" ++ ":10," ++ quoted "page" ++ ":2}}".

Definition get_users_request (project_id : string) : JsonRpc.Request :=
  JsonRpc.mkRequest "get_table_data"
    (Js.Obj [("project_id", Js.Str project_id);
             ("table_name", Js.Str "users");
             ("limit", Js.Num 10); ("page", Js.Num 2)])
    (Js.Num 2).

(** The line and the parsed payload of a [list_tables] request with id 3. *)
Definition list_tables_line (project_id : string) : string :=
  "{" ++ quoted "jsonrpc" ++ ":" ++ quoted "2.0" ++ ","
  ++ quoted "id" ++ ":3," ++ quoted "method" ++ ":" ++ quoted "list_tables"
  ++ "," ++ quoted "params" ++ ":{" ++ quoted "project_id" ++ ":"
  ++ quoted project_id ++ "}}".

Definition list_tables_request (project_id : string) : JsonRpc.Request :=
  JsonRpc.mkRequest "list_tables"
    (Js.Obj [("project_id", Js.Str project_id)]) (Js.Num 3).

(** The request lines the samples use. *)
Definition known (message : string) : option JsonRpc.Request :=
  if (message =? listTools_line)%string
  then Some (JsonRpc.mkRequest "listTools" Js.Undefined (Js.Num 1))
  else if (message =? get_users_line "p1")%string
  then Some (get_users_request "p1")
  else if (message =? get_users_line "p2")%string
  then Some (get_users_request "p2")
  else if (message =? get_users_line "")%string
  then Some (get_users_request "")
  else if (message =? list_tables_line "p1")%string
  then Some (list_tables_request "p1")
  else if (message =? list_tables_line "")%string
  then Some (list_tables_request "")
  else None.

(** An instance of [jsonrpc.parse] that knows the lines above and reports
    any other text as jsonrpc-lite reports text that is not JSON: an object of
    type ['invalid'] carrying a parse error, without throwing. *)
Definition parse (message : string) : Js.Completion JsonRpc.Parsed :=
  match known message with
  | Some payload => Js.Normal (JsonRpc.request payload)
  | None => Js.Normal (JsonRpc.invalid (JsonRpc.parseError message))
  end.

(** A client of a table [users] that has a row at every position asked for:
    the existence check finds the table, and a range is answered in full. *)
Definition full_count : Z := 18014398509481984.

Definition full : Supabase.Client :=
  fun q =>
    if Supabase.is_single q
    then
      Supabase.Resolved
        (Supabase.mkResponse
           (Js.Obj [("table_name", Js.Str "users")]) None None)
    else
      match Supabase.row_range q with
      | Some (from, to) =>
          Supabase.Resolved
            (Supabase.mkResponse
               (Js.Arr (repeat Js.Null (Z.to_nat (to - from + 1))))
               None (Some full_count))
      | None =>
          Supabase.Resolved
            (Supabase.mkResponse (Js.Arr []) None (Some full_count))
      end.

(** A client whose queries resolve with an error object that has no
    [message] member. *)
Definition failing : Supabase.Client :=
  fun _ => MemDb.failed (Supabase.mkError Js.NoMessage "").

(** An instance of [jsonrpc.parse] that reads every line as the same
    request. *)
Definition parse_as (payload : JsonRpc.Request) (message : string)
  : Js.Completion JsonRpc.Parsed :=
  Js.Normal (JsonRpc.request payload).


(** No inherited property is called in the samples. *)
Definition inherited (name : string)
  : option (Js.Value -> Js.Completion Js.Value) := None.

End Sample.

(* ================================================================== *)
(** ** Vocabulary of the statements *)
(* ================================================================== *)

Module Spec.


(** Two parameter objects that differ at most in [project_id]. *)
Definition same_but_project_id (a b : Js.Value) : Prop :=
  forall k, k <> "project_id" -> Js.get a k = Js.get b k.

(** What answering one line does, for a dispatcher [handle]: the queries
    of the dispatcher, then the response written. *)
Definition answer_events (handle : string -> Async.t JsonRpc.Response)
    (line : string) : list Async.Event :=
  match Async.run (handle line) with
  | (tr, Js.Normal response) => (tr ++ [Async.Wrote response])%list
  | (tr, Js.Throw _) => tr
  end.

(** What a list of complete lines is expected to cause: each line is
    trimmed, a blank line causes nothing, any other line is answered
    once, in order. *)
Definition framed (handle : string -> Async.t JsonRpc.Response)
    (lines : list string) : list Async.Event :=
  flat_map
    (fun raw =>
       let line := Js.trim raw in
       if (line =? "")%string then [] else answer_events handle line)
    lines.

(** A reply of the server is consistent: its status is 200, 404 or 500;
    [success] is true exactly for 200; a failure carries no data, and a
    message when the status is 404; a success with data carries no
    message. *)
Definition consistent_reply (reply : Server.Reply) : Prop :=
  let body := Server.body reply in
  (Server.status reply = 200 \/ Server.status reply = 404
   \/ Server.status reply = 500)
  /\ Server.success body = (Server.status reply =? 200)
  /\ (Server.success body = false -> Server.data body = None)
  /\ (Server.status reply = 404 -> Server.message body <> None)
  /\ (Server.data body <> None -> Server.message body = None).


(** The sums of the paginated fetch are exact: [page * limit],
    [offset + limit] and [offset + limit - 1] are at most 2^53 in absolute
    value. *)
Definition exact_window (page limit : Z) : Prop :=
  Z.abs (page * limit) <= Js.two53
  /\ Z.abs (page * limit + limit) <= Js.two53
  /\ Z.abs (page * limit + limit - 1) <= Js.two53.

End Spec.

(* ================================================================== *)
(** * Properties *)
(* ================================================================== *)

(** ** Evaluation of the built-ins on sample inputs *)

Example parseInt_digits : Js.parseInt (Js.Str "25") = Some 25.
Proof. reflexivity. Qed.

Example parseInt_stops_at_first_non_digit :
  Js.parseInt (Js.Str "  12px") = Some 12.
Proof. reflexivity. Qed.

Example parseInt_negative : Js.parseInt (Js.Str "-5") = Some (-5).
Proof. reflexivity. Qed.

Example parseInt_hexadecimal : Js.parseInt (Js.Str "0x1f") = Some 31.
Proof. reflexivity. Qed.

Example parseInt_word : Js.parseInt (Js.Str "abc") = None.
Proof. reflexivity. Qed.

Example parseInt_missing : Js.parseInt Js.Undefined = None.
Proof. reflexivity. Qed.

Example parseInt_number : Js.parseInt (Js.Num 7) = Some 7.
Proof. reflexivity. Qed.

Example parseInt_repeated_parameter :
  Js.parseInt (Js.Arr [Js.Str "5"; Js.Str "6"]) = Some 5.
Proof. reflexivity. Qed.

Example split_keeps_empty_parts :
  Js.split "010" ("a" ++ Js.LF ++ Js.LF ++ "b")
  = ["a"; ""; "b"].
Proof. reflexivity. Qed.

Example trim_both_ends : Js.trim "  a b  " = "a b".
Proof. reflexivity. Qed.

Example parseInt_rounds_to_double :
  Js.parseInt (Js.Str "9007199254740993") = Some 9007199254740992.
Proof. reflexivity. Qed.

Example parseInt_of_exponent_form :
  Js.ToString (Js.Num (10 ^ 21)) = "1e+21"
  /\ Js.parseInt (Js.Num (10 ^ 21)) = Some 1.
Proof. split; vm_compute; reflexivity. Qed.

Example toString_shortest_digits :
  Js.ToString (Js.Num (2 ^ 60)) = "1152921504606847000"
  /\ Js.ToString (Js.Num (2 ^ 70)) = "1.1805916207174113e+21"
  /\ Js.ToString (Js.Num (- 10 ^ 23)) = "-1e+23".
Proof. repeat split; vm_compute; reflexivity. Qed.

Example parseInt_of_fraction :
  Js.parseInt (Js.Frac "2.5") = Some 2
  /\ Shared.limit_of (Js.Frac "0.5") = 10.
Proof. split; reflexivity. Qed.

Example product_rounds_to_double :
  Js.mul 94906267 94906267 = 9007199515875288
  /\ 94906267 * 94906267 = 9007199515875289.
Proof. split; reflexivity. Qed.

(** ** Pagination *)

(** Up to 2^53 an integer is a double. *)
Lemma to_double_exact (n : Z) : Z.abs n <= Js.two53 -> Js.to_double n = n.
Proof.
  intros H; unfold Js.to_double.
  destruct (Z.leb_spec (Z.abs n) Js.two53) as [_|Hgt]; [reflexivity|lia].
Qed.

(** The paginated fetch asks for the rows from [page * limit] to
    [page * limit + limit - 1] when these sums are exact. *)
Lemma fetch_query_exact (t : string) (page limit : Z) :
  Spec.exact_window page limit ->
  Shared.fetch_query t (Js.mul page limit) limit
  = Shared.data_query t (page * limit) limit.
Proof.
  intros (H1 & H2 & H3).
  unfold Shared.fetch_query, Shared.data_query, Js.mul, Js.add, Js.sub.
  rewrite (to_double_exact _ H1), (to_double_exact _ H2),
    (to_double_exact _ H3).
  reflexivity.
Qed.

Lemma or_num_cases (n : option Z) (d : Z) :
  (n = None /\ Js.or_num n d = d)
  \/ (n = Some 0 /\ Js.or_num n d = d)
  \/ (exists z, n = Some z /\ z <> 0 /\ Js.or_num n d = z).
Proof.
  destruct n as [z|]; simpl.
  - destruct (Z.eqb_spec z 0) as [->|Hz].
    + right; left; split; reflexivity.
    + right; right; exists z; repeat split; assumption.
  - left; split; reflexivity.
Qed.

Lemma limit_of_nonzero (raw : Js.Value) : Shared.limit_of raw <> 0.
Proof.
  unfold Shared.limit_of.
  destruct (or_num_cases (Js.parseInt raw) 10)
    as [[_ ->]|[[_ ->]|[z [_ [Hz ->]]]]]; [discriminate|discriminate|exact Hz].
Qed.

Lemma div_defined (a b : Z) :
  b <> 0 -> Js.div a b = Some (inject_Z a / inject_Z b)%Q.
Proof.
  intros Hb; unfold Js.div.
  destruct (Z.eqb_spec b 0); [contradiction|reflexivity].
Qed.


Lemma pagination_pages (count : option Z) (page limit : Z) :
  limit <> 0 ->
  Data.pages (Shared.pagination count page limit)
  = Some (Qceiling (inject_Z (Js.count_to_number count) / inject_Z limit)).
Proof.
  intros Hl; unfold Shared.pagination; simpl.
  rewrite (div_defined _ _ Hl); reflexivity.
Qed.

(** ** Computations *)

Lemma queries_only_ret {A} (a : A) : Async.queries_only (Async.ret a).
Proof.
  exists [], (Js.Normal a); intros tr; unfold Async.ret; simpl.
  now rewrite app_nil_r.
Qed.

Lemma queries_only_throw {A} (m : string) :
  Async.queries_only (@Async.throw A m).
Proof.
  exists [], (Js.Throw m); intros tr; unfold Async.throw; simpl.
  now rewrite app_nil_r.
Qed.

Lemma queries_only_lift {A} (c : Js.Completion A) :
  Async.queries_only (Async.lift c).
Proof.
  exists [], c; intros tr; unfold Async.lift; simpl.
  now rewrite app_nil_r.
Qed.

Lemma queries_only_await (client : Supabase.Client) (q : Supabase.Query) :
  Async.queries_only (Async.await client q).
Proof. eexists [q], _; intros tr; reflexivity. Qed.

Lemma queries_only_bind {A B} (m : Async.t A) (k : A -> Async.t B) :
  Async.queries_only m -> (forall a, Async.queries_only (k a)) ->
  Async.queries_only (Async.bind m k).
Proof.
  intros (qs1 & [a|msg] & Hm) Hk; unfold Async.bind.
  - destruct (Hk a) as (qs2 & c2 & Hka).
    exists (qs1 ++ qs2)%list, c2; intros tr.
    rewrite Hm, Hka, map_app, app_assoc; reflexivity.
  - exists qs1, (Js.Throw msg); intros tr.
    rewrite Hm; reflexivity.
Qed.

Lemma queries_only_try_catch {A} (m : Async.t A) (h : string -> Async.t A) :
  Async.queries_only m -> (forall msg, Async.queries_only (h msg)) ->
  Async.queries_only (Async.try_catch m h).
Proof.
  intros (qs1 & [a|msg] & Hm) Hh; unfold Async.try_catch.
  - exists qs1, (Js.Normal a); intros tr.
    rewrite Hm; reflexivity.
  - destruct (Hh msg) as (qs2 & c2 & Hhm).
    exists (qs1 ++ qs2)%list, c2; intros tr.
    rewrite Hm, Hhm, map_app, app_assoc; reflexivity.
Qed.

Create HintDb async.
#[local] Hint Resolve queries_only_ret queries_only_throw queries_only_lift
  queries_only_await : async.

Ltac queries_only :=
  repeat first
    [ apply queries_only_bind; [|intro]
    | apply queries_only_try_catch; [|intro]
    | solve [auto with async]
    | match goal with
      | |- Async.queries_only (match ?x with _ => _ end) => destruct x
      | |- Async.queries_only (if ?b then _ else _) => destruct b
      end ].

(** ** The data route, case by case *)

Section DataRoute.

Variable supabase : Supabase.Client.
Variable now : string.
Variable req : Server.DataRequest.

Let t := Server.tableName req.
Let limit := Shared.limit_of (Js.get (Server.query req) "limit").
Let page := Shared.page_of (Js.get (Server.query req) "page").
Let check := Shared.table_check_query t.
Let fetch := Shared.fetch_query t (Js.mul page limit) limit.

Let not_found_reply := Server.not_found_reply now t.
Let failure_reply := Server.failure_reply now.
Let page_reply (r : Supabase.Response) := Server.page_reply now r page limit.

Lemma route_data_check_rejected (msg : string) :
  supabase check = Supabase.Rejected msg ->
  Async.run (Server.route_data supabase now req)
  = ([Async.Queried check], Js.Normal (failure_reply msg)).
Proof.
  intros H.
  unfold Async.run, Server.route_data, Async.try_catch, Async.bind,
    Async.await.
  fold t check; rewrite H; reflexivity.
Qed.

Lemma route_data_check_failed (r : Supabase.Response) :
  supabase check = Supabase.Resolved r ->
  Shared.check_failed r = true ->
  Async.run (Server.route_data supabase now req)
  = ([Async.Queried check], Js.Normal not_found_reply).
Proof.
  intros H Hf.
  unfold Async.run, Server.route_data, Async.try_catch, Async.bind,
    Async.await.
  fold t check; rewrite H, Hf; reflexivity.
Qed.

Lemma route_data_fetch_rejected (r : Supabase.Response) (msg : string) :
  supabase check = Supabase.Resolved r ->
  Shared.check_failed r = false ->
  supabase fetch = Supabase.Rejected msg ->
  Async.run (Server.route_data supabase now req)
  = ([Async.Queried check; Async.Queried fetch],
     Js.Normal (failure_reply msg)).
Proof.
  intros H Hf H2.
  unfold Async.run, Server.route_data, Async.try_catch, Async.bind,
    Async.await.
  fold t check limit page fetch; rewrite H, Hf; simpl.
  rewrite H2; reflexivity.
Qed.

Lemma route_data_fetch_error (r r2 : Supabase.Response)
    (e : Supabase.PostgrestError) :
  supabase check = Supabase.Resolved r ->
  Shared.check_failed r = false ->
  supabase fetch = Supabase.Resolved r2 ->
  Supabase.error r2 = Some e ->
  Async.run (Server.route_data supabase now req)
  = ([Async.Queried check; Async.Queried fetch],
     Js.Normal (Server.error_reply now e)).
Proof.
  intros H Hf H2 He.
  unfold Async.run, Server.route_data, Async.try_catch, Async.bind,
    Async.await.
  fold t check limit page fetch; rewrite H, Hf; simpl.
  rewrite H2, He; reflexivity.
Qed.

Lemma route_data_success (r r2 : Supabase.Response) :
  supabase check = Supabase.Resolved r ->
  Shared.check_failed r = false ->
  supabase fetch = Supabase.Resolved r2 ->
  Supabase.error r2 = None ->
  Async.run (Server.route_data supabase now req)
  = ([Async.Queried check; Async.Queried fetch], Js.Normal (page_reply r2)).
Proof.
  intros H Hf H2 He.
  unfold Async.run, Server.route_data, Async.try_catch, Async.bind,
    Async.await.
  fold t check limit page fetch; rewrite H, Hf; simpl.
  rewrite H2, He; reflexivity.
Qed.



End DataRoute.

(** ** The methods of the daemon, case by case *)

Section DaemonMethods.

Variable mcpConfig : Js.Value.
Variable client : Supabase.Client.
Variable parse : string -> Js.Completion JsonRpc.Parsed.
Variable inherited : string -> option (Js.Value -> Js.Completion Js.Value).

Hypothesis config_loaded : Js.is_nullish mcpConfig = false.

Lemma project_id_of_loaded (params : Js.Value) :
  exists v, Daemon.project_id_of mcpConfig params = Async.ret v.
Proof.
  unfold Daemon.project_id_of.
  destruct (Js.ToBoolean (Js.get params "project_id")).
  - eexists; reflexivity.
  - exists (Js.get mcpConfig "project_id").
    destruct mcpConfig; try discriminate; reflexivity.
Qed.

Lemma get_table_data_run (params : Js.Value) :
  let t := Js.ToString (Js.get params "table_name") in
  let limit := Shared.limit_of (Js.get params "limit") in
  let page := Shared.page_of (Js.get params "page") in
  let check := Shared.table_check_query t in
  let fetch := Shared.fetch_query t (Js.mul page limit) limit in
  let wrap msg := "Error fetching data from table " ++ t ++ ": " ++ msg in
  Async.run (Daemon.get_table_data mcpConfig (Some client) params)
  = match client check with
    | Supabase.Rejected msg => ([Async.Queried check], Js.Throw (wrap msg))
    | Supabase.Resolved r =>
        if Shared.check_failed r
        then ([Async.Queried check],
              Js.Throw (wrap ("Table '" ++ t ++ "' not found")))
        else
          match client fetch with
          | Supabase.Rejected msg =>
              ([Async.Queried check; Async.Queried fetch],
               Js.Throw (wrap msg))
          | Supabase.Resolved r2 =>
              match Supabase.error r2 with
              | Some e =>
                  ([Async.Queried check; Async.Queried fetch],
                   Js.Throw (wrap (Js.message_text (Supabase.message e))))
              | None =>
                  ([Async.Queried check; Async.Queried fetch],
                   Js.Normal
                     (Data.TablePage (Supabase.data r2)
                        (Shared.pagination (Supabase.count r2) page limit)))
              end
          end
    end.
Proof.
  intros t limit page check fetch wrap.
  unfold Async.run, Daemon.get_table_data.
  destruct (project_id_of_loaded params) as [v ->].
  unfold Async.try_catch, Async.bind, Async.await, Async.ret, Async.throw.
  fold t limit page check fetch.
  destruct (client check) as [r|msg]; [|reflexivity].
  destruct (Shared.check_failed r); [reflexivity|]; simpl.
  destruct (client fetch) as [r2|msg]; [|reflexivity].
  destruct (Supabase.error r2); reflexivity.
Qed.

Lemma list_tables_run (params : Js.Value) :
  Async.run (Daemon.list_tables mcpConfig (Some client) params)
  = ([Async.Queried Shared.tables_query],
     match client Shared.tables_query with
     | Supabase.Rejected msg => Js.Throw ("Error listing tables: " ++ msg)
     | Supabase.Resolved r =>
         match Supabase.error r with
         | Some e =>
             Js.Throw ("Error listing tables: "
                       ++ Js.message_text (Supabase.message e))
         | None =>
             match Shared.table_refs (Supabase.data r) with
             | Js.Normal tables => Js.Normal (Data.TableList tables)
             | Js.Throw msg => Js.Throw ("Error listing tables: " ++ msg)
             end
         end
     end).
Proof.
  unfold Async.run, Daemon.list_tables.
  destruct (project_id_of_loaded params) as [v ->].
  unfold Async.try_catch, Async.bind, Async.await, Async.ret, Async.throw,
    Async.lift.
  destruct (client Shared.tables_query) as [r|msg]; [|reflexivity].
  destruct (Supabase.error r); [reflexivity|].
  destruct (Shared.table_refs (Supabase.data r)); reflexivity.
Qed.

End DaemonMethods.

(** ** The dispatcher *)

Section Dispatcher.

Variable mcpConfig : Js.Value.
Variable supabase : option Supabase.Client.
Variable parse : string -> Js.Completion JsonRpc.Parsed.
Variable inherited : string -> option (Js.Value -> Js.Completion Js.Value).

Let handle := Daemon.handleJsonRpc mcpConfig supabase parse inherited.

(** [handleJsonRpc] always resolves with a response. *)
Lemma handleJsonRpc_resolves (message : string) (tr : list Async.Event) :
  exists tr' response, handle message tr = (tr', Js.Normal response).
Proof.
  unfold handle, Daemon.handleJsonRpc, Async.try_catch, Async.bind,
    Async.lift, Async.ret.
  destruct (parse message) as [[payload|payload|]|msg]; simpl;
    try (eexists _, _; reflexivity).
  destruct (Daemon.methods _ _ _ _) as [implementation|];
    [|eexists _, _; reflexivity].
  destruct (implementation _ tr) as [tr' [result|msg]];
    eexists _, _; reflexivity.
Qed.

(** A request for a method of the table is answered with the result of the
    method, or with an internal error carrying what it threw; the id is the
    one of the request. *)
Lemma handleJsonRpc_request (message : string) (payload : JsonRpc.Request)
    (implementation : Js.Value -> Async.t Data.Payload)
    (tr : list Async.Event) :
  parse message = Js.Normal (JsonRpc.request payload) ->
  Daemon.methods mcpConfig supabase inherited (JsonRpc.method payload)
  = Some implementation ->
  handle message tr
  = match implementation (Js.or (JsonRpc.params payload) (Js.Obj [])) tr with
    | (tr', Js.Normal result) =>
        (tr', Js.Normal (JsonRpc.success (JsonRpc.id payload) result))
    | (tr', Js.Throw msg) =>
        (tr', Js.Normal (JsonRpc.error (JsonRpc.id payload)
                           (JsonRpc.internalError msg)))
    end.
Proof.
  intros Hp Hm.
  unfold handle, Daemon.handleJsonRpc, Async.try_catch, Async.bind,
    Async.lift, Async.ret.
  rewrite Hp; simpl; rewrite Hm.
  destruct (implementation _ tr) as [tr' [result|msg]]; reflexivity.
Qed.

(** When [jsonrpc.parse] throws, the answer is a parse error with a null
    id. *)
Lemma handleJsonRpc_parse_throws (message msg : string)
    (tr : list Async.Event) :
  parse message = Js.Throw msg ->
  handle message tr
  = (tr, Js.Normal (JsonRpc.error Js.Null (JsonRpc.parseError msg))).
Proof.
  intros Hp.
  unfold handle, Daemon.handleJsonRpc, Async.try_catch, Async.bind,
    Async.lift, Async.ret.
  rewrite Hp; reflexivity.
Qed.

(** When [jsonrpc.parse] reports type ['invalid'], the answer is an invalid
    request with a null id. *)
Lemma handleJsonRpc_invalid (message : string) (payload : JsonRpc.Error)
    (tr : list Async.Event) :
  parse message = Js.Normal (JsonRpc.invalid payload) ->
  handle message tr
  = (tr, Js.Normal (JsonRpc.error Js.Null
                      (JsonRpc.invalidRequest (JsonRpc.message payload)))).
Proof.
  intros Hp.
  unfold handle, Daemon.handleJsonRpc, Async.try_catch, Async.bind,
    Async.lift, Async.ret.
  rewrite Hp; reflexivity.
Qed.


End Dispatcher.

(** ** Claims on pagination *)

(** C10.  After normalization the limit is never zero: a raw limit whose
    integer conversion fails or yields 0 becomes 10, so the quotient
    [count / limit] of the [pages] field is always defined. *)
Theorem limit_never_zero (raw : Js.Value) :
  Shared.limit_of raw <> 0
  /\ (Js.parseInt raw = None \/ Js.parseInt raw = Some 0 ->
      Shared.limit_of raw = 10)
  /\ (forall (count : option Z) (page : Z),
        Js.div (Js.count_to_number count) (Shared.limit_of raw) <> None
        /\ Data.pages (Shared.pagination count page (Shared.limit_of raw))
           <> None).
Proof.
  split; [apply limit_of_nonzero|split].
  - unfold Shared.limit_of; intros [-> | ->]; reflexivity.
  - intros count page.
    rewrite (pagination_pages count page _ (limit_of_nonzero raw)).
    rewrite (div_defined _ _ (limit_of_nonzero raw)).
    split; discriminate.
Qed.

Lemma limit_never_zero_witness :
  Shared.limit_of (Js.Str "0") = 10 /\ Shared.limit_of (Js.Str "ten") = 10.
Proof.
  split.
  - apply (proj1 (proj2 (limit_never_zero (Js.Str "0")))).
    right; reflexivity.
  - apply (proj1 (proj2 (limit_never_zero (Js.Str "ten")))).
    left; reflexivity.
Defined.





Lemma project_id_of_lift (mcpConfig params : Js.Value) :
  exists c, Daemon.project_id_of mcpConfig params = Async.lift c.
Proof.
  unfold Daemon.project_id_of.
  destruct (Js.ToBoolean _); eexists; reflexivity.
Qed.




Example pages_of_25_by_10 :
  Data.pages (Shared.pagination (Some 25) 2 10) = Some 3.
Proof. reflexivity. Qed.

Example pages_of_empty_table :
  Data.pages (Shared.pagination (Some 0) 0 10) = Some 0.
Proof. reflexivity. Qed.

(** ** The reference client *)

Lemma filter_none {A} (f : A -> bool) (l : list A) :
  (forall x, In x l -> f x = false) -> filter f l = [].
Proof.
  induction l as [|a l IH]; intros H; simpl; [reflexivity|].
  rewrite (H a (or_introl eq_refl)).
  apply IH; intros x Hx; apply H; right; exact Hx.
Qed.

Lemma keep_catalog (fs : list Supabase.Filter) (l : list (string * string)) :
  MemDb.keep fs (map MemDb.catalog_row l)
  = map MemDb.catalog_row
      (filter (fun e => forallb (MemDb.satisfies (MemDb.catalog_row e)) fs) l).
Proof.
  unfold MemDb.keep.
  induction l as [|e l IH]; simpl; [reflexivity|].
  destruct (forallb _ fs); simpl; rewrite IH; reflexivity.
Qed.

Lemma check_filters_catalog (t : string) (e : string * string) :
  forallb (MemDb.satisfies (MemDb.catalog_row e))
    [Supabase.Eq "table_schema" "public"; Supabase.Eq "table_name" t]
  = ((fst e =? "public")%string && (snd e =? t)%string).
Proof.
  destruct e as [s n]; cbn.
  now rewrite andb_true_r.
Qed.

(** The existence check on a name that is not in schema [public] finds no
    row. *)
Lemma check_absent (db : MemDb.Database) (t : string) :
  ~ In ("public", t) (MemDb.catalog db) ->
  MemDb.client db (Shared.table_check_query t)
  = MemDb.failed MemDb.not_single.
Proof.
  intros Habs.
  unfold MemDb.client, Shared.table_check_query; cbn.
  rewrite keep_catalog.
  rewrite filter_none; [reflexivity|].
  intros [s n] Hin.
  rewrite check_filters_catalog; simpl.
  destruct (String.eqb_spec s "public") as [->|]; [|reflexivity].
  destruct (String.eqb_spec n t) as [->|]; [|reflexivity].
  contradiction.
Qed.

Lemma window_length (from to : Z) (rows rows' : list Js.Value) :
  MemDb.window (Some (from, to)) rows = Some rows' ->
  Z.of_nat (List.length rows') <= Z.max 0 (to - from + 1).
Proof.
  unfold MemDb.window.
  destruct (_ || _)%bool; [discriminate|].
  intros H; inversion H; subst.
  pose proof (firstn_le_length (Z.to_nat (to - from + 1))
                (skipn (Z.to_nat from) rows)).
  lia.
Qed.

Lemma memdb_honours_range (db : MemDb.Database) :
  Supabase.honours_range (MemDb.client db).
Proof.
  intros q from to r rows Hrange Hsingle Hq Herr Hdata.
  unfold MemDb.client in Hq.
  destruct (MemDb.rows_of db (Supabase.relation q)) as [all|];
    [|inversion Hq; subst; discriminate].
  rewrite Hrange, Hsingle in Hq.
  destruct (MemDb.window _ _) as [rows0|] eqn:Hw;
    [|inversion Hq; subst; discriminate].
  inversion Hq; subst; simpl in Hdata.
  inversion Hdata; subst.
  rewrite length_map.
  exact (window_length _ _ _ _ Hw).
Qed.

(** ** Claims on the existence check and the fetch *)

(** C2, as the code has it.  In the HTTP data route the existence check
    that resolves with an error, whatever the error says, or without a row,
    is answered 404 with the not-found message and no further query; only
    a check whose promise rejects is answered 500 with the thrown
    message. *)
Theorem table_check_status (supabase : Supabase.Client) (now : string)
    (req : Server.DataRequest) :
  let check := Shared.table_check_query (Server.tableName req) in
  (forall r,
      supabase check = Supabase.Resolved r ->
      Supabase.error r <> None \/ Js.ToBoolean (Supabase.data r) = false ->
      Async.run (Server.route_data supabase now req)
      = ([Async.Queried check],
         Js.Normal (Server.not_found_reply now (Server.tableName req))))
  /\ (forall msg,
        supabase check = Supabase.Rejected msg ->
        Async.run (Server.route_data supabase now req)
        = ([Async.Queried check], Js.Normal (Server.failure_reply now msg)))
  /\ Server.status (Server.not_found_reply now (Server.tableName req)) = 404
  /\ (forall msg, Server.status (Server.failure_reply now msg) = 500).
Proof.
  intros check; split; [|split; [|split]].
  - intros r Hr Hfail.
    apply (route_data_check_failed supabase now req r Hr).
    unfold Shared.check_failed.
    destruct (Supabase.error r); [reflexivity|].
    destruct Hfail as [H|H]; [contradiction|now rewrite H].
  - intros msg Hr.
    apply (route_data_check_rejected supabase now req msg Hr).
  - reflexivity.
  - reflexivity.
Qed.

Lemma table_check_status_witness :
  Async.run
    (Server.route_data MemDb.unreachable Sample.now
       (Server.mkDataRequest "p1" "users" (Sample.query "3" "0")))
  = ([Async.Queried (Shared.table_check_query "users")],
     Js.Normal (Server.not_found_reply Sample.now "users"))
  /\ Async.run
       (Server.route_data (MemDb.rejecting "fetch failed") Sample.now
          (Server.mkDataRequest "p1" "users" (Sample.query "3" "0")))
     = ([Async.Queried (Shared.table_check_query "users")],
        Js.Normal (Server.failure_reply Sample.now "fetch failed")).
Proof.
  split.
  - apply (proj1 (table_check_status MemDb.unreachable Sample.now
                    (Server.mkDataRequest "p1" "users"
                       (Sample.query "3" "0")))
             (Supabase.mkResponse Js.Null
                (Some (Supabase.mkError (Js.Text "TypeError: fetch failed")
                         ""))
                None)).
    + reflexivity.
    + left; discriminate.
  - apply (proj1 (proj2 (table_check_status (MemDb.rejecting "fetch failed")
                           Sample.now
                           (Server.mkDataRequest "p1" "users"
                              (Sample.query "3" "0"))))).
    reflexivity.
Defined.

(** C2, as stated, fails: when the metadata query does not reach the
    service and the client reports the failed fetch in [error], the route
    answers 404 with the not-found message, not 500. *)
Lemma transport_failure_answered_not_found :
  exists tr reply,
    Async.run
      (Server.route_data MemDb.unreachable Sample.now
         (Server.mkDataRequest "p1" "users" (Sample.query "3" "0")))
    = (tr, Js.Normal reply)
    /\ Server.status reply = 404
    /\ Server.status reply <> 500
    /\ Server.message (Server.body reply) = Some "Table 'users' not found".
Proof.
  eexists _, _; split; [reflexivity|].
  split; [reflexivity|].
  split; [discriminate|reflexivity].
Qed.

(** C5, as the code has it.  On a table that passes the existence check,
    the data handlers compute [offset = page * limit] and request the rows
    from [offset] to [offset + limit - 1], both included, with an exact
    count, as long as [page * limit], [offset + limit] and
    [offset + limit - 1] are at most 2^53 in absolute value; with a client
    that honours [range], the rows of the page are then at most [limit] when
    [limit] and [page] are not negative. *)
Theorem data_fetch_window :
  (forall supabase now req r,
      let t := Server.tableName req in
      let limit := Shared.limit_of (Js.get (Server.query req) "limit") in
      let page := Shared.page_of (Js.get (Server.query req) "page") in
      let offset := page * limit in
      supabase (Shared.table_check_query t) = Supabase.Resolved r ->
      Shared.check_failed r = false ->
      Spec.exact_window page limit ->
      exists reply,
        Async.run (Server.route_data supabase now req)
        = ([Async.Queried (Shared.table_check_query t);
            Async.Queried
              (Supabase.mkQuery t "*" (Some "exact") [] None
                 (Some (offset, offset + limit - 1)) false)],
           Js.Normal reply)
        /\ (Supabase.honours_range supabase ->
            forall rows pg,
              Server.data (Server.body reply)
              = Some (Data.TablePage (Js.Arr rows) pg) ->
              Data.limit pg = limit /\ Data.page pg = page
              /\ (0 <= limit -> 0 <= page ->
                  Z.of_nat (List.length rows) <= limit)))
  /\ (forall mcpConfig client params r,
        let t := Js.ToString (Js.get params "table_name") in
        let limit := Shared.limit_of (Js.get params "limit") in
        let page := Shared.page_of (Js.get params "page") in
        let offset := page * limit in
        Js.is_nullish mcpConfig = false ->
        client (Shared.table_check_query t) = Supabase.Resolved r ->
        Shared.check_failed r = false ->
        Spec.exact_window page limit ->
        exists completion,
          Async.run (Daemon.get_table_data mcpConfig (Some client) params)
          = ([Async.Queried (Shared.table_check_query t);
              Async.Queried
                (Supabase.mkQuery t "*" (Some "exact") [] None
                   (Some (offset, offset + limit - 1)) false)],
             completion)
          /\ (Supabase.honours_range client ->
              forall rows pg,
                completion = Js.Normal (Data.TablePage (Js.Arr rows) pg) ->
                Data.limit pg = limit /\ Data.page pg = page
                /\ (0 <= limit -> 0 <= page ->
                    Z.of_nat (List.length rows) <= limit))).
Proof.
  split.
  - intros supabase now req r t limit page offset Hr Hf Hex.
    pose (fetch := Shared.fetch_query t (Js.mul page limit) limit).
    assert (Heq : fetch
                  = Supabase.mkQuery t "*" (Some "exact") [] None
                      (Some (offset, offset + limit - 1)) false)
      by exact (fetch_query_exact t page limit Hex).
    rewrite <- Heq.
    assert (Hbound : Supabase.honours_range supabase ->
                     forall r2 rows,
                       supabase fetch = Supabase.Resolved r2 ->
                       Supabase.error r2 = None ->
                       Supabase.data r2 = Js.Arr rows ->
                       0 <= limit ->
                       Z.of_nat (List.length rows) <= limit).
    { intros Hh r2 rows H2 He Hd Hl.
      assert (Hrange : Supabase.row_range fetch
                       = Some (offset, offset + limit - 1))
        by (rewrite Heq; reflexivity).
      assert (Hsingle : Supabase.is_single fetch = false) by reflexivity.
      pose proof (Hh fetch offset (offset + limit - 1) r2 rows
                    Hrange Hsingle H2 He Hd).
      lia. }
    destruct (supabase fetch) as [r2|msg] eqn:H2.
    + destruct (Supabase.error r2) as [e|] eqn:He.
      * eexists; split;
          [exact (route_data_fetch_error supabase now req r r2 e Hr Hf H2 He)|].
        intros _ rows pg Hd; discriminate.
      * eexists; split;
          [exact (route_data_success supabase now req r r2 Hr Hf H2 He)|].
        intros Hh rows pg Hd; simpl in Hd.
        inversion Hd as [[Hrows Hpg]]; subst pg.
        split; [reflexivity|split; [reflexivity|]].
        intros Hl _. exact (Hbound Hh r2 rows eq_refl He Hrows Hl).
    + eexists; split;
        [exact (route_data_fetch_rejected supabase now req r msg Hr Hf H2)|].
      intros _ rows pg Hd; discriminate.
  - intros mcpConfig client params r t limit page offset Hc Hr Hf Hex.
    pose proof (get_table_data_run mcpConfig client Hc params) as Hrun.
    cbv zeta in Hrun; fold t limit page in Hrun.
    rewrite Hr, Hf in Hrun.
    pose (fetch := Shared.fetch_query t (Js.mul page limit) limit).
    assert (Heq : fetch
                  = Supabase.mkQuery t "*" (Some "exact") [] None
                      (Some (offset, offset + limit - 1)) false)
      by exact (fetch_query_exact t page limit Hex).
    rewrite <- Heq.
    fold fetch in Hrun.
    destruct (client fetch) as [r2|msg] eqn:H2.
    + destruct (Supabase.error r2) as [e|] eqn:He.
      * eexists; split; [exact Hrun|].
        intros _ rows pg Hd; discriminate.
      * eexists; split; [exact Hrun|].
        intros Hh rows pg Hd.
        inversion Hd as [[Hrows Hpg]]; subst pg.
        split; [reflexivity|split; [reflexivity|]].
        intros Hl _.
        assert (Hrange : Supabase.row_range fetch
                         = Some (offset, offset + limit - 1))
          by (rewrite Heq; reflexivity).
        assert (Hsingle : Supabase.is_single fetch = false) by reflexivity.
        pose proof (Hh fetch offset (offset + limit - 1) r2 rows
                      Hrange Hsingle H2 He Hrows).
        lia.
    + eexists; split; [exact Hrun|].
      intros _ rows pg Hd; discriminate.
Qed.

(** 25 users, [limit=10&page=2]: the range from 20 to 29, and at most 10
    rows. *)
Lemma data_fetch_window_witness :
  exists reply,
    Async.run
      (Server.route_data (MemDb.client Sample.db) Sample.now
         (Server.mkDataRequest "p1" "users" (Sample.query "10" "2")))
    = ([Async.Queried (Shared.table_check_query "users");
        Async.Queried
          (Supabase.mkQuery "users" "*" (Some "exact") [] None
             (Some (20, 29)) false)],
       Js.Normal reply)
    /\ (Supabase.honours_range (MemDb.client Sample.db) ->
        forall rows pg,
          Server.data (Server.body reply)
          = Some (Data.TablePage (Js.Arr rows) pg) ->
          Data.limit pg = 10 /\ Data.page pg = 2
          /\ (0 <= 10 -> 0 <= 2 -> Z.of_nat (List.length rows) <= 10)).
Proof.
  apply (proj1 data_fetch_window (MemDb.client Sample.db) Sample.now
           (Server.mkDataRequest "p1" "users" (Sample.query "10" "2"))
           (Supabase.mkResponse (Js.Obj [("table_name", Js.Str "users")])
              None None)).
  - reflexivity.
  - reflexivity.
  - vm_compute; repeat split; discriminate.
Defined.

(** C5, as stated, fails: with [limit=94906267&page=94906267] the product
    [page * limit] is 9007199515875289, which is not a double.  The data
    route asks for the rows from 9007199515875288 to 9007199610781556: not
    the range from [page * limit] to [page * limit + limit - 1], and a
    window of [limit + 2] positions, which a client that honours [range] and
    has a row at each of them answers with [limit + 2] rows. *)
Lemma rounded_window_is_wider :
  let limit := Shared.limit_of (Js.Str "94906267") in
  let page := Shared.page_of (Js.Str "94906267") in
  let req :=
    Server.mkDataRequest "p1" "users" (Sample.query "94906267" "94906267") in
  limit = 94906267 /\ page = 94906267
  /\ page * limit = 9007199515875289
  /\ page * limit + limit - 1 = 9007199610781555
  /\ Async.queries
       (fst (Async.run (Server.route_data Sample.full Sample.now req)))
     = [Shared.table_check_query "users";
        Supabase.from "users" |> Supabase.select_count "*" "exact"
        |> Supabase.range 9007199515875288 9007199610781556]
  /\ 9007199610781556 - 9007199515875288 + 1 = limit + 2
  /\ Supabase.honours_range Sample.full
  /\ exists tr rows pg,
       Async.run (Server.route_data Sample.full Sample.now req)
       = (tr,
          Js.Normal
            (Server.json
               (Server.formatResponse Sample.now true
                  (Some (Data.TablePage (Js.Arr rows) pg)) None 200)))
       /\ Data.limit pg = limit
       /\ Z.of_nat (List.length rows) = limit + 2
       /\ ~ Z.of_nat (List.length rows) <= limit.
Proof.
  intros limit page req.
  assert (Hlimit : limit = 94906267) by reflexivity.
  assert (Hpage : page = 94906267) by reflexivity.
  split; [exact Hlimit|].
  split; [exact Hpage|].
  split; [rewrite Hlimit, Hpage; reflexivity|].
  split; [rewrite Hlimit, Hpage; reflexivity|].
  pose (fetch := Supabase.from "users" |> Supabase.select_count "*" "exact"
                 |> Supabase.range 9007199515875288 9007199610781556).
  assert (Hfetch : Shared.fetch_query "users" (Js.mul page limit) limit
                   = fetch) by (vm_compute; reflexivity).
  pose (r := Supabase.mkResponse (Js.Obj [("table_name", Js.Str "users")])
               None None).
  pose (r2 := Supabase.mkResponse
                (Js.Arr (repeat Js.Null (Z.to_nat (limit + 2))))
                None (Some Sample.full_count)).
  assert (H2 : Sample.full
                 (Shared.fetch_query "users" (Js.mul page limit) limit)
               = Supabase.Resolved r2).
  { rewrite Hfetch; unfold Sample.full, fetch, r2; cbn [Supabase.is_single
      Supabase.row_range Supabase.range Supabase.select_count Supabase.from].
    rewrite Hlimit; reflexivity. }
  assert (Hrun : Async.run (Server.route_data Sample.full Sample.now req)
                 = ([Async.Queried (Shared.table_check_query "users");
                     Async.Queried
                       (Shared.fetch_query "users" (Js.mul page limit)
                          limit)],
                    Js.Normal (Server.page_reply Sample.now r2 page limit)))
    by exact (route_data_success Sample.full Sample.now req r r2
                eq_refl eq_refl H2 eq_refl).
  split; [rewrite Hrun, Hfetch; reflexivity|].
  split; [rewrite Hlimit; reflexivity|].
  split.
  - intros q from to r0 rows Hrange Hsingle Hq Herr Hdata.
    unfold Sample.full in Hq; rewrite Hsingle, Hrange in Hq.
    inversion Hq; subst r0; cbn [Supabase.data] in Hdata.
    inversion Hdata; subst rows.
    rewrite repeat_length; lia.
  - exists [Async.Queried (Shared.table_check_query "users");
            Async.Queried
              (Shared.fetch_query "users" (Js.mul page limit) limit)],
      (repeat Js.Null (Z.to_nat (limit + 2))),
      (Shared.pagination (Some Sample.full_count) page limit).
    split; [exact Hrun|].
    split; [reflexivity|].
    rewrite repeat_length, Hlimit; lia.
Qed.

Example users_page_2 :
  Async.run
    (Server.route_data (MemDb.client Sample.db) Sample.now
       (Server.mkDataRequest "p1" "users" (Sample.query "10" "2")))
  = ([Async.Queried (Shared.table_check_query "users");
      Async.Queried (Shared.data_query "users" 20 10)],
     Js.Normal
       (Server.mkReply 200
          (Server.mkEnvelope true
             (Some (Data.TablePage (Js.Arr (map Sample.user (seq 21 5)))
                      (Data.mkPagination (Some 25) 2 10 (Some 3))))
             None Sample.now))).
Proof. reflexivity. Qed.

(** [get_table_data] throws when the existence check fails. *)
Lemma get_table_data_check_failed (mcpConfig : Js.Value)
    (client : Supabase.Client) (params : Js.Value) (r : Supabase.Response) :
  let t := Js.ToString (Js.get params "table_name") in
  client (Shared.table_check_query t) = Supabase.Resolved r ->
  Shared.check_failed r = true ->
  exists tr msg,
    Async.run (Daemon.get_table_data mcpConfig (Some client) params)
    = (tr, Js.Throw msg)
    /\ (Js.is_nullish mcpConfig = false ->
        tr = [Async.Queried (Shared.table_check_query t)]
        /\ msg = "Error fetching data from table " ++ t
                 ++ ": Table '" ++ t ++ "' not found").
Proof.
  intros t Hr Hf.
  destruct (Js.is_nullish mcpConfig) eqn:Hc.
  - unfold Async.run, Daemon.get_table_data.
    destruct (project_id_of_lift mcpConfig params) as [[v|msg] ->];
      unfold Async.bind, Async.lift.
    + unfold Async.try_catch, Async.bind, Async.await, Async.throw.
      fold t; rewrite Hr, Hf.
      eexists _, _; split; [reflexivity|discriminate].
    + eexists _, _; split; [reflexivity|discriminate].
  - pose proof (get_table_data_run mcpConfig client Hc params) as Hrun.
    cbv zeta in Hrun; fold t in Hrun; rewrite Hr, Hf in Hrun.
    eexists _, _; split; [exact Hrun|].
    intros _; split; reflexivity.
Qed.

(** C7.  For a table name that is not in schema [public], the HTTP data
    route replies 404 with [success: false], and a [get_table_data] request
    on the STDIO transport is answered with a JSON-RPC error object carrying
    the id of the request; both handlers complete normally. *)
Theorem missing_table_is_not_found (db : MemDb.Database) (t : string) :
  ~ In ("public", t) (MemDb.catalog db) ->
  (forall now projectId query,
      exists reply,
        Async.run
          (Server.route_data (MemDb.client db) now
             (Server.mkDataRequest projectId t query))
        = ([Async.Queried (Shared.table_check_query t)], Js.Normal reply)
        /\ Server.status reply = 404
        /\ Server.success (Server.body reply) = false
        /\ Server.message (Server.body reply)
           = Some ("Table '" ++ t ++ "' not found"))
  /\ (forall mcpConfig parse inherited line payload,
        parse line = Js.Normal (JsonRpc.request payload) ->
        JsonRpc.method payload = "get_table_data" ->
        Js.ToString
          (Js.get (Js.or (JsonRpc.params payload) (Js.Obj [])) "table_name")
        = t ->
        exists tr e,
          Async.run
            (Daemon.handleJsonRpc mcpConfig (Some (MemDb.client db)) parse
               inherited line)
          = (tr, Js.Normal (JsonRpc.error (JsonRpc.id payload) e))
          /\ (Js.is_nullish mcpConfig = false ->
              tr = [Async.Queried (Shared.table_check_query t)]
              /\ e = JsonRpc.internalError
                       ("Error fetching data from table " ++ t
                        ++ ": Table '" ++ t ++ "' not found"))).
Proof.
  intros Habs; split.
  - intros now projectId query.
    exists (Server.not_found_reply now t).
    split; [|split; [|split]]; [|reflexivity..].
    apply (route_data_check_failed (MemDb.client db) now
             (Server.mkDataRequest projectId t query) _
             (check_absent db t Habs)).
    reflexivity.
  - intros mcpConfig parse inherited line payload Hp Hm Ht.
    unfold Async.run.
    rewrite (handleJsonRpc_request mcpConfig (Some (MemDb.client db)) parse
               inherited line payload
               (Daemon.get_table_data mcpConfig (Some (MemDb.client db)))
               [] Hp);
      [|rewrite Hm; reflexivity].
    destruct (get_table_data_check_failed mcpConfig (MemDb.client db)
                (Js.or (JsonRpc.params payload) (Js.Obj []))
                (Supabase.mkResponse Js.Null (Some MemDb.not_single) None))
      as (tr & msg & Hrun & Hmsg).
    + rewrite Ht; exact (check_absent db t Habs).
    + reflexivity.
    + unfold Async.run in Hrun; rewrite Hrun.
      exists tr, (JsonRpc.internalError msg); split; [reflexivity|].
      intros Hc; destruct (Hmsg Hc) as [-> ->].
      rewrite Ht; split; reflexivity.
Qed.

Lemma missing_table_is_not_found_witness :
  exists reply,
    Async.run
      (Server.route_data (MemDb.client Sample.db) Sample.now
         (Server.mkDataRequest "p1" "no_such_table" (Sample.query "3" "0")))
    = ([Async.Queried (Shared.table_check_query "no_such_table")],
       Js.Normal reply)
    /\ Server.status reply = 404
    /\ Server.success (Server.body reply) = false
    /\ Server.message (Server.body reply)
       = Some ("Table '" ++ "no_such_table" ++ "' not found").
Proof.
  apply (proj1 (missing_table_is_not_found Sample.db "no_such_table"
                  ltac:(simpl; intuition discriminate))).
Defined.

(** ** The list of tables *)

Section SortRows.

Variable column : string.

Let row_le (a b : Js.Value) : Prop :=
  String.leb (MemDb.sort_key column a) (MemDb.sort_key column b) = true.

Lemma insert_sorted_perm (x : Js.Value) (l : list Js.Value) :
  Permutation (MemDb.insert_sorted column x l) (x :: l).
Proof.
  induction l as [|r l IH]; simpl; [apply Permutation_refl|].
  destruct (String.leb _ _); [apply Permutation_refl|].
  apply perm_trans with (r :: x :: l);
    [apply perm_skip; exact IH|apply perm_swap].
Qed.

Lemma sort_rows_perm (l : list Js.Value) :
  Permutation (MemDb.sort_rows column l) l.
Proof.
  induction l as [|x l IH]; simpl; [apply perm_nil|].
  apply perm_trans with (x :: MemDb.sort_rows column l);
    [apply insert_sorted_perm|apply perm_skip; exact IH].
Qed.

Lemma insert_sorted_hd (a x : Js.Value) (l : list Js.Value) :
  HdRel row_le a l -> row_le a x ->
  HdRel row_le a (MemDb.insert_sorted column x l).
Proof.
  intros Hhd Hax.
  destruct l as [|r l]; simpl; [constructor; exact Hax|].
  destruct (String.leb _ _); constructor;
    [exact Hax|inversion Hhd; assumption].
Qed.

Lemma insert_sorted_sorted (x : Js.Value) (l : list Js.Value) :
  Sorted row_le l -> Sorted row_le (MemDb.insert_sorted column x l).
Proof.
  induction l as [|r l IH]; intros Hs; simpl.
  - repeat constructor.
  - destruct (String.leb (MemDb.sort_key column x) (MemDb.sort_key column r))
      eqn:Hle.
    + constructor; [exact Hs|constructor; exact Hle].
    + inversion Hs as [|? ? Hs' Hhd]; subst.
      constructor; [apply IH; exact Hs'|].
      apply insert_sorted_hd; [exact Hhd|].
      unfold row_le.
      destruct (String.leb_total (MemDb.sort_key column x)
                  (MemDb.sort_key column r)) as [H|H];
        [congruence|exact H].
Qed.

Lemma sort_rows_sorted (l : list Js.Value) :
  Sorted row_le (MemDb.sort_rows column l).
Proof.
  induction l as [|x l IH]; simpl; [constructor|].
  apply insert_sorted_sorted; exact IH.
Qed.

End SortRows.

Lemma sorted_catalog_rows (entries : list (string * string)) :
  Sorted
    (fun a b =>
       String.leb (MemDb.sort_key "table_name" a)
         (MemDb.sort_key "table_name" b) = true)
    (map MemDb.catalog_row entries) ->
  Sorted MemDb.name_le entries.
Proof.
  induction entries as [|e entries IH]; intros Hs; [constructor|].
  inversion Hs as [|? ? Hs' Hhd]; subst.
  constructor; [apply IH; exact Hs'|].
  destruct entries as [|e' entries]; constructor.
  inversion Hhd as [|? ? Hle]; subst.
  destruct e, e'; exact Hle.
Qed.

Lemma list_filters_catalog (e : string * string) :
  forallb (MemDb.satisfies (MemDb.catalog_row e))
    [Supabase.Eq "table_schema" "public";
     Supabase.Neq "table_name" "pg_stat_statements"]
  = MemDb.listed e.
Proof.
  destruct e as [s n]; cbn.
  now rewrite andb_true_r.
Qed.

Lemma project_catalog_rows (entries : list (string * string)) :
  map (MemDb.project "table_schema, table_name")
    (map MemDb.catalog_row entries)
  = map MemDb.catalog_row entries.
Proof.
  induction entries as [|[s n] entries IH]; simpl; [reflexivity|].
  rewrite IH; reflexivity.
Qed.

Lemma table_refs_catalog_rows (entries : list (string * string)) :
  Shared.table_refs (Js.Arr (map MemDb.catalog_row entries))
  = Js.Normal (map MemDb.entry_ref entries).
Proof.
  simpl.
  induction entries as [|[s n] entries IH]; simpl; [reflexivity|].
  rewrite IH; reflexivity.
Qed.

(** What the reference client answers to the list-tables query. *)
Lemma tables_query_answer (db : MemDb.Database) :
  exists entries,
    Permutation entries (filter MemDb.listed (MemDb.catalog db))
    /\ Sorted MemDb.name_le entries
    /\ MemDb.client db Shared.tables_query
       = Supabase.Resolved
           (Supabase.mkResponse (Js.Arr (map MemDb.catalog_row entries))
              None None).
Proof.
  pose (chosen := filter MemDb.listed (MemDb.catalog db)).
  pose (sorted := MemDb.sort_rows "table_name" (map MemDb.catalog_row chosen)).
  destruct (Permutation_map_inv MemDb.catalog_row chosen
              (sort_rows_perm "table_name" (map MemDb.catalog_row chosen)))
    as (entries & Heq & Hperm).
  exists entries; split; [apply Permutation_sym; exact Hperm|].
  split.
  - apply sorted_catalog_rows; rewrite <- Heq; apply sort_rows_sorted.
  - unfold MemDb.client, Shared.tables_query; cbn.
    rewrite keep_catalog.
    rewrite (filter_ext _ MemDb.listed list_filters_catalog).
    fold chosen; rewrite Heq, project_catalog_rows; reflexivity.
Qed.

(** C8.  The list-tables operation, on both transports, asks for the
    tables of schema [public] other than [pg_stat_statements] ordered by
    [table_name], and returns them as [{ schema, name }] pairs: every such
    table of the catalog, no other, in ascending order of the name. *)
Theorem list_tables_result (db : MemDb.Database) :
  exists entries,
    Permutation entries (filter MemDb.listed (MemDb.catalog db))
    /\ Sorted MemDb.name_le entries
    /\ (forall s n,
          In (s, n) entries <->
          In (s, n) (MemDb.catalog db)
          /\ s = "public" /\ n <> "pg_stat_statements")
    /\ (forall now req,
          Async.run (Server.route_tables (MemDb.client db) now req)
          = ([Async.Queried
                (Supabase.mkQuery "information_schema.tables"
                   "table_schema, table_name" None
                   [Supabase.Eq "table_schema" "public";
                    Supabase.Neq "table_name" "pg_stat_statements"]
                   (Some "table_name") None false)],
             Js.Normal
               (Server.mkReply 200
                  (Server.mkEnvelope true
                     (Some (Data.TableList (map MemDb.entry_ref entries)))
                     None now))))
    /\ (forall mcpConfig params,
          Js.is_nullish mcpConfig = false ->
          Async.run
            (Daemon.list_tables mcpConfig (Some (MemDb.client db)) params)
          = ([Async.Queried Shared.tables_query],
             Js.Normal (Data.TableList (map MemDb.entry_ref entries)))).
Proof.
  destruct (tables_query_answer db) as (entries & Hperm & Hsorted & Hq).
  exists entries.
  split; [exact Hperm|split; [exact Hsorted|split; [|split]]].
  - intros s n; split.
    + intros Hin.
      apply (Permutation_in _ Hperm) in Hin.
      apply filter_In in Hin; destruct Hin as [Hin Hl].
      unfold MemDb.listed in Hl; simpl in Hl.
      apply andb_prop in Hl; destruct Hl as [Hs Hn].
      apply String.eqb_eq in Hs.
      apply negb_true_iff, String.eqb_neq in Hn.
      auto.
    + intros (Hin & Hs & Hn).
      apply (Permutation_in _ (Permutation_sym Hperm)).
      apply filter_In; split; [exact Hin|].
      unfold MemDb.listed; simpl.
      apply andb_true_intro; split.
      * apply String.eqb_eq; exact Hs.
      * apply negb_true_iff, String.eqb_neq; exact Hn.
  - intros now req.
    unfold Async.run, Server.route_tables, Async.try_catch, Async.bind,
      Async.await, Async.lift.
    rewrite Hq; cbn [Supabase.error Supabase.data].
    rewrite table_refs_catalog_rows; reflexivity.
  - intros mcpConfig params Hc.
    rewrite (list_tables_run mcpConfig (MemDb.client db) Hc params).
    rewrite Hq; cbn [Supabase.error Supabase.data].
    rewrite table_refs_catalog_rows; reflexivity.
Qed.

Lemma list_tables_result_witness :
  exists entries,
    Permutation entries (filter MemDb.listed (MemDb.catalog Sample.db))
    /\ Sorted MemDb.name_le entries
    /\ In ("public", "orders") entries
    /\ ~ In ("public", "pg_stat_statements") entries
    /\ ~ In ("auth", "sessions") entries.
Proof.
  destruct (list_tables_result Sample.db)
    as (entries & Hperm & Hsorted & Hin & _).
  exists entries.
  split; [exact Hperm|split; [exact Hsorted|split; [|split]]].
  - apply Hin; simpl; intuition discriminate.
  - intros H; apply Hin in H; destruct H as (_ & _ & H); apply H; reflexivity.
  - intros H; apply Hin in H; destruct H as (_ & H & _); discriminate.
Defined.

Example sample_tables :
  Async.run
    (Server.route_tables (MemDb.client Sample.db) Sample.now
       (Server.mkTablesRequest "p1"))
  = ([Async.Queried Shared.tables_query],
     Js.Normal
       (Server.tables_reply Sample.now
          [Data.mkTableRef (Js.Str "public") (Js.Str "orders");
           Data.mkTableRef (Js.Str "public") (Js.Str "users")])).
Proof. reflexivity. Qed.

(** ** The project identifier *)

Lemma get_table_data_ignores_project_id (mcpConfig : Js.Value)
    (supabase : option Supabase.Client) (p1 p2 : Js.Value) :
  Js.is_nullish mcpConfig = false ->
  Spec.same_but_project_id p1 p2 ->
  Daemon.get_table_data mcpConfig supabase p1
  = Daemon.get_table_data mcpConfig supabase p2.
Proof.
  intros Hc Hsame.
  unfold Daemon.get_table_data.
  destruct (project_id_of_loaded mcpConfig Hc p1) as [v1 ->].
  destruct (project_id_of_loaded mcpConfig Hc p2) as [v2 ->].
  rewrite (Hsame "table_name"), (Hsame "limit"), (Hsame "page");
    try discriminate.
  reflexivity.
Qed.

Lemma list_tables_ignores_project_id (mcpConfig : Js.Value)
    (supabase : option Supabase.Client) (p1 p2 : Js.Value) :
  Js.is_nullish mcpConfig = false ->
  Daemon.list_tables mcpConfig supabase p1
  = Daemon.list_tables mcpConfig supabase p2.
Proof.
  intros Hc.
  unfold Daemon.list_tables.
  destruct (project_id_of_loaded mcpConfig Hc p1) as [v1 ->].
  destruct (project_id_of_loaded mcpConfig Hc p2) as [v2 ->].
  reflexivity.
Qed.

(** Where the configuration is not [null], two requests that differ only in
    the project identifier make the handlers issue the same queries and give
    the same response: the HTTP routes never read [:projectId], and the
    JSON-RPC methods read [project_id] into a variable that nothing uses. *)
Lemma project_id_is_ignored :
  (forall supabase now projectId1 projectId2 tableName query,
      Async.run
        (Server.route_data supabase now
           (Server.mkDataRequest projectId1 tableName query))
      = Async.run
          (Server.route_data supabase now
             (Server.mkDataRequest projectId2 tableName query)))
  /\ (forall supabase now projectId1 projectId2,
        Async.run
          (Server.route_tables supabase now
             (Server.mkTablesRequest projectId1))
        = Async.run
            (Server.route_tables supabase now
               (Server.mkTablesRequest projectId2)))
  /\ (forall mcpConfig supabase parse inherited line1 line2 payload1 payload2,
        Js.is_nullish mcpConfig = false ->
        parse line1 = Js.Normal (JsonRpc.request payload1) ->
        parse line2 = Js.Normal (JsonRpc.request payload2) ->
        JsonRpc.method payload1 = JsonRpc.method payload2 ->
        JsonRpc.id payload1 = JsonRpc.id payload2 ->
        JsonRpc.method payload1 = "list_tables"
        \/ JsonRpc.method payload1 = "get_table_data" ->
        Spec.same_but_project_id
          (Js.or (JsonRpc.params payload1) (Js.Obj []))
          (Js.or (JsonRpc.params payload2) (Js.Obj [])) ->
        Async.run
          (Daemon.handleJsonRpc mcpConfig supabase parse inherited line1)
        = Async.run
            (Daemon.handleJsonRpc mcpConfig supabase parse inherited line2)).
Proof.
  split; [reflexivity|split; [reflexivity|]].
  intros mcpConfig supabase parse inherited line1 line2 payload1 payload2
    Hc Hp1 Hp2 Hm Hid Hmethod Hsame.
  unfold Async.run.
  destruct Hmethod as [Hl|Hg].
  - rewrite (handleJsonRpc_request mcpConfig supabase parse inherited line1
               payload1 (Daemon.list_tables mcpConfig supabase) [] Hp1);
      [|rewrite Hl; reflexivity].
    rewrite (handleJsonRpc_request mcpConfig supabase parse inherited line2
               payload2 (Daemon.list_tables mcpConfig supabase) [] Hp2);
      [|rewrite <- Hm, Hl; reflexivity].
    rewrite (list_tables_ignores_project_id mcpConfig supabase
               (Js.or (JsonRpc.params payload1) (Js.Obj []))
               (Js.or (JsonRpc.params payload2) (Js.Obj [])) Hc).
    rewrite Hid; reflexivity.
  - rewrite (handleJsonRpc_request mcpConfig supabase parse inherited line1
               payload1 (Daemon.get_table_data mcpConfig supabase) [] Hp1);
      [|rewrite Hg; reflexivity].
    rewrite (handleJsonRpc_request mcpConfig supabase parse inherited line2
               payload2 (Daemon.get_table_data mcpConfig supabase) [] Hp2);
      [|rewrite <- Hm, Hg; reflexivity].
    rewrite (get_table_data_ignores_project_id mcpConfig supabase
               (Js.or (JsonRpc.params payload1) (Js.Obj []))
               (Js.or (JsonRpc.params payload2) (Js.Obj [])) Hc Hsame).
    rewrite Hid; reflexivity.
Qed.

(** ** The line framer *)

Lemma append_nil_r (s : string) : s ++ "" = s.
Proof. induction s as [|c s IH]; simpl; [reflexivity|now rewrite IH]. Qed.

Lemma append_assoc (a b c : string) : (a ++ b) ++ c = a ++ (b ++ c).
Proof. induction a as [|x a IH]; simpl; [reflexivity|now rewrite IH]. Qed.

Lemma split_nonempty (sep : ascii) (s : string) : Js.split sep s <> [].
Proof.
  destruct s as [|c s]; simpl; [discriminate|].
  destruct (Ascii.eqb c sep); [discriminate|].
  destruct (Js.split sep s); discriminate.
Qed.

Lemma last_app_nonempty {A} (l1 l2 : list A) (d : A) :
  l2 <> [] -> last (l1 ++ l2) d = last l2 d.
Proof.
  intros H2; induction l1 as [|x l1 IH]; simpl; [reflexivity|].
  destruct (l1 ++ l2)%list eqn:E; [|exact IH].
  apply app_eq_nil in E; destruct E; contradiction.
Qed.

(** Splitting a text that continues a buffer: the complete lines of the
    buffer, then the split of its last part followed by the rest. *)
Lemma split_app_buffer (sep : ascii) (s1 s2 : string) :
  Js.split sep (s1 ++ s2)
  = (removelast (Js.split sep s1)
     ++ Js.split sep (last (Js.split sep s1) "" ++ s2))%list.
Proof.
  induction s1 as [|c r IH]; [reflexivity|].
  pose proof (split_nonempty sep r) as Hne.
  simpl.
  destruct (Ascii.eqb c sep) eqn:Hc.
  - rewrite IH.
    destruct (Js.split sep r) as [|f rest]; [contradiction|reflexivity].
  - rewrite IH.
    destruct (Js.split sep r) as [|f [|g rest]]; [contradiction| |].
    + simpl; rewrite Hc; reflexivity.
    + reflexivity.
Qed.

(** What remains in the buffer holds no separator. *)
Lemma split_last_single (sep : ascii) (s : string) :
  Js.split sep (last (Js.split sep s) "") = [last (Js.split sep s) ""].
Proof.
  induction s as [|c r IH]; [reflexivity|].
  pose proof (split_nonempty sep r) as Hne.
  simpl.
  destruct (Ascii.eqb c sep) eqn:Hc.
  - destruct (Js.split sep r) as [|f rest]; [contradiction|exact IH].
  - destruct (Js.split sep r) as [|f [|g rest]]; [contradiction| |].
    + simpl in IH |- *; rewrite Hc, IH; reflexivity.
    + exact IH.
Qed.

Section Framer.

Variable mcpConfig : Js.Value.
Variable supabase : option Supabase.Client.
Variable parse : string -> Js.Completion JsonRpc.Parsed.
Variable inherited : string -> option (Js.Value -> Js.Completion Js.Value).

Let handle := Daemon.handleJsonRpc mcpConfig supabase parse inherited.
Let newline : ascii := "010"%char.

Lemma methods_queries_only (method : string)
    (implementation : Js.Value -> Async.t Data.Payload) :
  Daemon.methods mcpConfig supabase inherited method = Some implementation ->
  forall params, Async.queries_only (implementation params).
Proof.
  unfold Daemon.methods.
  destruct (method =? "listTools")%string;
    [intros H; inversion H; subst; intros params;
     unfold Daemon.listTools; queries_only|].
  destruct (method =? "list_tables")%string;
    [intros H; inversion H; subst; intros params;
     unfold Daemon.list_tables, Daemon.project_id_of; queries_only|].
  destruct (method =? "get_table_data")%string;
    [intros H; inversion H; subst; intros params;
     unfold Daemon.get_table_data, Daemon.project_id_of; queries_only|].
  destruct (inherited method) as [f|]; [|discriminate].
  intros H; inversion H; subst; intros params; queries_only.
Qed.

Lemma handleJsonRpc_queries_only (line : string) :
  Async.queries_only (handle line).
Proof.
  unfold handle, Daemon.handleJsonRpc.
  apply queries_only_try_catch; [|intro; queries_only].
  apply queries_only_bind; [queries_only|].
  intros [payload|payload|]; [|queries_only..].
  destruct (Daemon.methods _ _ _ _) as [implementation|] eqn:Hm;
    [|queries_only].
  apply queries_only_try_catch; [|intro; queries_only].
  apply queries_only_bind; [|intro; queries_only].
  exact (methods_queries_only _ _ Hm _).
Qed.

(** Handling a line awaits some queries and resolves with a response,
    whatever has happened before. *)
Lemma handleJsonRpc_run (line : string) :
  exists qs response,
    forall tr,
      handle line tr
      = ((tr ++ map Async.Queried qs)%list, Js.Normal response).
Proof.
  destruct (handleJsonRpc_queries_only line) as (qs & c & H).
  destruct (handleJsonRpc_resolves mcpConfig supabase parse inherited line [])
    as (tr' & response & Hr).
  fold handle in Hr.
  rewrite H in Hr; inversion Hr; subst.
  exists qs, response; exact H.
Qed.

Lemma answer_run (line : string) (tr : list Async.Event) :
  Daemon.answer mcpConfig supabase parse inherited line tr
  = ((tr ++ Spec.answer_events handle line)%list, Js.Normal tt).
Proof.
  destruct (handleJsonRpc_run line) as (qs & response & H).
  unfold Daemon.answer, Async.bind, Async.write, Spec.answer_events, Async.run.
  fold handle; rewrite (H tr), (H []); simpl.
  now rewrite app_assoc.
Qed.

Lemma process_lines_run (lines : list string) (tr : list Async.Event) :
  Daemon.process_lines mcpConfig supabase parse inherited lines tr
  = ((tr ++ Spec.framed handle (removelast lines))%list, Js.Normal tt).
Proof.
  revert tr; induction lines as [|raw rest IH]; intros tr.
  - simpl; unfold Async.ret; now rewrite app_nil_r.
  - destruct rest as [|next rest'].
    + simpl; unfold Async.ret; now rewrite app_nil_r.
    + change (removelast (raw :: next :: rest'))
        with (raw :: removelast (next :: rest')).
      change (Daemon.process_lines mcpConfig supabase parse inherited
                (raw :: next :: rest') tr)
        with ((let line := Js.trim raw in
               if (line =? "")%string
               then Daemon.process_lines mcpConfig supabase parse inherited
                      (next :: rest')
               else
                 Async.bind
                   (Daemon.answer mcpConfig supabase parse inherited line)
                   (fun _ =>
                      Daemon.process_lines mcpConfig supabase parse inherited
                        (next :: rest'))) tr).
      unfold Spec.framed; simpl flat_map; fold (Spec.framed handle).
      cbv zeta.
      destruct (Js.trim raw =? "")%string.
      * rewrite IH; reflexivity.
      * unfold Async.bind; rewrite answer_run, IH.
        now rewrite app_assoc.
Qed.

(** One invocation of the [data] callback: the complete lines of the
    buffer followed by the chunk are answered, the last part is kept. *)
Lemma on_data_run (inputBuffer chunk : string) (tr : list Async.Event) :
  let lines := Js.split newline (inputBuffer ++ chunk) in
  Daemon.on_data mcpConfig supabase parse inherited inputBuffer chunk tr
  = ((tr ++ Spec.framed handle (removelast lines))%list,
     Js.Normal (last lines "")).
Proof.
  intros lines.
  unfold Daemon.on_data, Async.try_catch, Async.bind.
  fold newline lines.
  rewrite process_lines_run; reflexivity.
Qed.

(** A sequence of chunks, each handled before the next arrives: the
    framing is that of the concatenated input. *)
Lemma on_chunks_run (chunks : list string) :
  forall (inputBuffer : string) (tr : list Async.Event),
    Js.split newline inputBuffer = [inputBuffer] ->
    let input := inputBuffer ++ fold_right String.append "" chunks in
    Daemon.on_chunks mcpConfig supabase parse inherited inputBuffer chunks tr
    = ((tr ++ Spec.framed handle (removelast (Js.split newline input)))%list,
       Js.Normal (last (Js.split newline input) "")).
Proof.
  induction chunks as [|chunk rest IH]; intros inputBuffer tr Hbuf input.
  - unfold input; simpl; rewrite append_nil_r, Hbuf; simpl.
    unfold Async.ret; now rewrite app_nil_r.
  - simpl Daemon.on_chunks; unfold Async.bind.
    rewrite on_data_run; cbv zeta.
    rewrite (IH _ _ (split_last_single newline (inputBuffer ++ chunk))).
    cbv zeta.
    unfold input; simpl fold_right.
    rewrite <- append_assoc.
    rewrite (split_app_buffer newline (inputBuffer ++ chunk)).
    pose proof (split_nonempty newline
                  (last (Js.split newline (inputBuffer ++ chunk)) ""
                   ++ fold_right String.append "" rest)) as Hne.
    rewrite (removelast_app _ Hne).
    rewrite (last_app_nonempty _ _ _ Hne).
    unfold Spec.framed; rewrite flat_map_app, app_assoc; reflexivity.
Qed.

End Framer.

Lemma split_line (sep : ascii) (l s : string) :
  Js.split sep l = [l] ->
  Js.split sep (l ++ String sep s) = l :: Js.split sep s.
Proof.
  induction l as [|c r IH]; intros H.
  - simpl; now rewrite Ascii.eqb_refl.
  - pose proof (split_nonempty sep r) as Hne.
    simpl in H |- *.
    destruct (Ascii.eqb c sep).
    + destruct (Js.split sep r); [contradiction|discriminate].
    + destruct (Js.split sep r) as [|f rest] eqn:E; [contradiction|].
      inversion H; subst.
      rewrite (IH eq_refl); reflexivity.
Qed.

Lemma written_queries (qs : list Supabase.Query) :
  Async.written (map Async.Queried qs) = [].
Proof. induction qs as [|q qs IH]; [reflexivity|exact IH]. Qed.

Lemma written_app (tr1 tr2 : list Async.Event) :
  Async.written (tr1 ++ tr2) = (Async.written tr1 ++ Async.written tr2)%list.
Proof. unfold Async.written; apply flat_map_app. Qed.

Section Answers.

Variable mcpConfig : Js.Value.
Variable supabase : option Supabase.Client.
Variable parse : string -> Js.Completion JsonRpc.Parsed.
Variable inherited : string -> option (Js.Value -> Js.Completion Js.Value).

Let handle := Daemon.handleJsonRpc mcpConfig supabase parse inherited.

(** Answering a line writes exactly one response, the one the dispatcher
    resolves with. *)
Lemma answer_events_shape (line : string) :
  exists qs response,
    Async.run (handle line) = (map Async.Queried qs, Js.Normal response)
    /\ Spec.answer_events handle line
       = (map Async.Queried qs ++ [Async.Wrote response])%list
    /\ Async.written (Spec.answer_events handle line) = [response].
Proof.
  destruct (handleJsonRpc_run mcpConfig supabase parse inherited line)
    as (qs & response & H).
  fold handle in H.
  exists qs, response.
  assert (Hrun : Async.run (handle line)
                 = (map Async.Queried qs, Js.Normal response))
    by (unfold Async.run; rewrite H; reflexivity).
  split; [exact Hrun|].
  unfold Spec.answer_events; rewrite Hrun.
  split; [reflexivity|].
  rewrite written_app, written_queries; reflexivity.
Qed.

(** As many responses are written as there are complete lines that are not
    blank. *)
Lemma framed_written_count (lines : list string) :
  List.length (Async.written (Spec.framed handle lines))
  = List.length
      (filter (fun raw => negb (Js.trim raw =? "")%string) lines).
Proof.
  induction lines as [|raw rest IH]; [reflexivity|].
  change (Spec.framed handle (raw :: rest))
    with ((if (Js.trim raw =? "")%string then []
           else Spec.answer_events handle (Js.trim raw))
          ++ Spec.framed handle rest)%list.
  rewrite written_app, length_app, IH; simpl filter.
  destruct (Js.trim raw =? "")%string; [reflexivity|].
  destruct (answer_events_shape (Js.trim raw)) as (qs & r & _ & _ & ->).
  reflexivity.
Qed.

End Answers.

(** ** Claims on the STDIO transport *)

(** C4, as the code has it.  When each invocation of the [data] callback
    completes before the next chunk is delivered: the chunk is appended to
    the buffer, the buffer is split on line feeds, every part but the last
    is trimmed and, unless it is then empty, handled exactly once as one
    JSON-RPC message whose response is written; a blank part is skipped
    without a response; the last part, untrimmed, is the new buffer.  The
    result is that of framing the concatenated input, wherever the chunks
    are cut. *)
Theorem stdin_framing (mcpConfig : Js.Value)
    (supabase : option Supabase.Client)
    (parse : string -> Js.Completion JsonRpc.Parsed)
    (inherited : string -> option (Js.Value -> Js.Completion Js.Value)) :
  let handle := Daemon.handleJsonRpc mcpConfig supabase parse inherited in
  (forall inputBuffer chunk,
      let lines := Js.split "010" (inputBuffer ++ chunk) in
      Async.run
        (Daemon.on_data mcpConfig supabase parse inherited inputBuffer chunk)
      = (Spec.framed handle (removelast lines), Js.Normal (last lines "")))
  /\ (forall chunks,
        let lines := Js.split "010" (fold_right String.append "" chunks) in
        Async.run
          (Daemon.on_chunks mcpConfig supabase parse inherited "" chunks)
        = (Spec.framed handle (removelast lines), Js.Normal (last lines "")))
  /\ (forall line,
        exists response,
          snd (Async.run (handle line)) = Js.Normal response
          /\ Async.written (Spec.answer_events handle line) = [response])
  /\ (forall lines,
        List.length (Async.written (Spec.framed handle lines))
        = List.length
            (filter (fun raw => negb (Js.trim raw =? "")%string) lines)).
Proof.
  intros handle; split; [|split; [|split]].
  - intros inputBuffer chunk lines.
    unfold Async.run.
    rewrite (on_data_run mcpConfig supabase parse inherited inputBuffer
               chunk []).
    reflexivity.
  - intros chunks lines.
    unfold Async.run.
    rewrite (on_chunks_run mcpConfig supabase parse inherited chunks "" []
               eq_refl).
    reflexivity.
  - intros line.
    destruct (answer_events_shape mcpConfig supabase parse inherited line)
      as (qs & response & Hrun & _ & Hw).
    exists response; split; [|exact Hw].
    fold handle in Hrun; rewrite Hrun; reflexivity.
  - intros lines.
    apply framed_written_count.
Qed.

(** C4, as stated, fails: a chunk made of an empty line and a line of
    two spaces holds two complete lines, and neither is handled as a
    JSON-RPC message: nothing is parsed, queried or written. *)
Lemma blank_lines_are_skipped :
  removelast (Js.split "010" (Js.LF ++ "  " ++ Js.LF)) = [""; "  "]
  /\ Async.run
       (Daemon.on_chunks Sample.mcpConfig (Some (MemDb.client Sample.db))
          Sample.parse Sample.inherited "" [Js.LF ++ "  " ++ Js.LF])
     = ([], Js.Normal "").
Proof. split; reflexivity. Qed.

Example framing_across_chunks :
  Async.written
    (fst (Async.run
            (Daemon.on_chunks Sample.mcpConfig
               (Some (MemDb.client Sample.db)) Sample.parse
               Sample.inherited ""
               ["not js"; "on" ++ Js.LF ++ "  " ++ Sample.listTools_line;
                "  " ++ Js.LF ++ "rest"])))
  = [JsonRpc.error Js.Null (JsonRpc.invalidRequest "Parse error");
     JsonRpc.success (Js.Num 1) (Data.ToolList Daemon.tools)]
  /\ snd (Async.run
            (Daemon.on_chunks Sample.mcpConfig
               (Some (MemDb.client Sample.db)) Sample.parse
               Sample.inherited ""
               ["not js"; "on" ++ Js.LF ++ "  " ++ Sample.listTools_line;
                "  " ++ Js.LF ++ "rest"]))
     = Js.Normal "rest".
Proof. split; reflexivity. Qed.




(** [jsonrpc.parse] reports unparsable text as an object of type
    ['invalid'] and does not throw: the line is answered with an invalid
    request, code -32600, not with the parse error, code -32700, of the
    [catch] of the dispatcher; the next line is answered all the same. *)
Example invalid_type_is_answered_invalid_request :
  Async.written
    (fst (Async.run
            (Daemon.on_chunks Sample.mcpConfig
               (Some (MemDb.client Sample.db)) Sample.parse Sample.inherited
               "" ["not json" ++ Js.LF ++ Sample.listTools_line ++ Js.LF])))
  = [JsonRpc.error Js.Null (JsonRpc.mkError "Invalid request" (-32600)
                              "Parse error");
     JsonRpc.success (Js.Num 1) (Data.ToolList Daemon.tools)].
Proof. reflexivity. Qed.

(** Two [get_table_data] requests for page 2 of [users] that differ in
    [project_id] only. *)
Lemma project_id_is_ignored_witness :
  Async.run
    (Daemon.handleJsonRpc Sample.mcpConfig (Some (MemDb.client Sample.db))
       Sample.parse Sample.inherited (Sample.get_users_line "p1"))
  = Async.run
      (Daemon.handleJsonRpc Sample.mcpConfig (Some (MemDb.client Sample.db))
         Sample.parse Sample.inherited (Sample.get_users_line "p2")).
Proof.
  apply (proj2 (proj2 project_id_is_ignored) Sample.mcpConfig
           (Some (MemDb.client Sample.db)) Sample.parse Sample.inherited
           (Sample.get_users_line "p1") (Sample.get_users_line "p2")
           (Sample.get_users_request "p1") (Sample.get_users_request "p2"));
    try reflexivity.
  - right; reflexivity.
  - intros k Hk; simpl.
    destruct (String.eqb_spec k "project_id"); [contradiction|reflexivity].
Defined.

Example users_page_2_over_stdio :
  Async.run
    (Daemon.handleJsonRpc Sample.mcpConfig (Some (MemDb.client Sample.db))
       Sample.parse Sample.inherited (Sample.get_users_line "p1"))
  = ([Async.Queried (Shared.table_check_query "users");
      Async.Queried (Shared.data_query "users" 20 10)],
     Js.Normal
       (JsonRpc.success (Js.Num 2)
          (Data.TablePage (Js.Arr (map Sample.user (seq 21 5)))
             (Data.mkPagination (Some 25) 2 10 (Some 3))))).
Proof. reflexivity. Qed.

(** Were [.mcp.json] to hold the JSON value [null], reading
    [mcpConfig.project_id] would throw, and it is read exactly when
    [params.project_id] is falsy. *)
Example null_config_is_read_for_falsy_project_id :
  snd (Async.run
         (Daemon.list_tables Js.Null (Some (MemDb.client Sample.db))
            (Js.Obj [("project_id", Js.Str "p1")])))
  = Js.Normal
      (Data.TableList
         [Data.mkTableRef (Js.Str "public") (Js.Str "orders");
          Data.mkTableRef (Js.Str "public") (Js.Str "users")])
  /\ Async.run
       (Daemon.list_tables Js.Null (Some (MemDb.client Sample.db))
          (Js.Obj [("project_id", Js.Str "")]))
     = ([], Js.Throw "Cannot read properties of null (reading 'project_id')").
Proof. split; reflexivity. Qed.

(** C9, at an input where the code departs from it.  With a [.mcp.json]
    that holds the JSON value [null], [mcpConfig.project_id] is read exactly
    when [params.project_id] is falsy, and reading it throws.  Of two
    [list_tables] requests, and of two [get_table_data] requests, that are
    the same but for [project_id], the one for project "p1" makes its
    queries and is answered with its result, the one for the empty project
    makes no query and is answered with an internal error. *)
Theorem project_id_decides_with_null_config :
  let handle :=
    Daemon.handleJsonRpc Js.Null (Some (MemDb.client Sample.db)) Sample.parse
      Sample.inherited in
  let unread :=
    JsonRpc.internalError
      "Cannot read properties of null (reading 'project_id')" in
  Sample.parse (Sample.list_tables_line "p1")
  = Js.Normal (JsonRpc.request (Sample.list_tables_request "p1"))
  /\ Sample.parse (Sample.list_tables_line "")
     = Js.Normal (JsonRpc.request (Sample.list_tables_request ""))
  /\ Spec.same_but_project_id
       (JsonRpc.params (Sample.list_tables_request "p1"))
       (JsonRpc.params (Sample.list_tables_request ""))
  /\ Spec.same_but_project_id
       (JsonRpc.params (Sample.get_users_request "p1"))
       (JsonRpc.params (Sample.get_users_request ""))
  /\ Async.run (handle (Sample.list_tables_line "p1"))
     = ([Async.Queried Shared.tables_query],
        Js.Normal
          (JsonRpc.success (Js.Num 3)
             (Data.TableList
                [Data.mkTableRef (Js.Str "public") (Js.Str "orders");
                 Data.mkTableRef (Js.Str "public") (Js.Str "users")])))
  /\ Async.run (handle (Sample.list_tables_line ""))
     = ([], Js.Normal (JsonRpc.error (Js.Num 3) unread))
  /\ Async.run (handle (Sample.get_users_line "p1"))
     = ([Async.Queried (Shared.table_check_query "users");
         Async.Queried (Shared.data_query "users" 20 10)],
        Js.Normal
          (JsonRpc.success (Js.Num 2)
             (Data.TablePage (Js.Arr (map Sample.user (seq 21 5)))
                (Data.mkPagination (Some 25) 2 10 (Some 3)))))
  /\ Async.run (handle (Sample.get_users_line ""))
     = ([], Js.Normal (JsonRpc.error (Js.Num 2) unread)).
Proof.
  assert (Hsame : forall method id,
             Spec.same_but_project_id
               (JsonRpc.params
                  (JsonRpc.mkRequest method
                     (Js.Obj [("project_id", Js.Str "p1")]) id))
               (JsonRpc.params
                  (JsonRpc.mkRequest method
                     (Js.Obj [("project_id", Js.Str "")]) id))).
  { intros method id k Hk; simpl.
    destruct (String.eqb_spec k "project_id"); [contradiction|reflexivity]. }
  intros handle unread.
  split; [reflexivity|].
  split; [reflexivity|].
  split; [exact (Hsame "list_tables" (Js.Num 3))|].
  split.
  { intros k Hk; simpl.
    destruct (String.eqb_spec k "project_id"); [contradiction|reflexivity]. }
  split; [reflexivity|].
  split; [reflexivity|].
  split; reflexivity.
Qed.

(** ** Re-entrancy of the [data] callback *)

Section Reentrancy.

Variable mcpConfig : Js.Value.
Variable supabase : option Supabase.Client.
Variable parse : string -> Js.Completion JsonRpc.Parsed.
Variable inherited : string -> option (Js.Value -> Js.Completion Js.Value).

Let handle := Daemon.handleJsonRpc mcpConfig supabase parse inherited.
Let resume := Daemon.resume mcpConfig supabase parse inherited.
Let deliver := Daemon.deliver.
Let settle := Daemon.settle mcpConfig supabase parse inherited.

Lemma advance_fragment (lines : list string) (fragment : string) :
  Daemon.advance lines = inr fragment ->
  Spec.framed handle (removelast lines) = [] /\ last lines "" = fragment.
Proof.
  induction lines as [|raw rest IH]; intros H.
  - inversion H; split; reflexivity.
  - destruct rest as [|next rest'].
    + inversion H; split; reflexivity.
    + change (Daemon.advance (raw :: next :: rest'))
        with (if (Js.trim raw =? "")%string
              then Daemon.advance (next :: rest')
              else inl (Daemon.mkInvocation (Js.trim raw) (next :: rest')))
        in H.
      change (Spec.framed handle (removelast (raw :: next :: rest')))
        with ((if (Js.trim raw =? "")%string then []
               else Spec.answer_events handle (Js.trim raw))
              ++ Spec.framed handle (removelast (next :: rest')))%list.
      change (last (raw :: next :: rest') "")
        with (last (next :: rest') "").
      destruct (Js.trim raw =? "")%string; [|discriminate].
      exact (IH H).
Qed.

Lemma advance_invocation (lines : list string) (line : string)
    (rest : list string) :
  Daemon.advance lines = inl (Daemon.mkInvocation line rest) ->
  Spec.framed handle (removelast lines)
  = (Spec.answer_events handle line
     ++ Spec.framed handle (removelast rest))%list
  /\ last lines "" = last rest ""
  /\ (List.length rest < List.length lines)%nat.
Proof.
  induction lines as [|raw rest0 IH]; intros H; [discriminate|].
  destruct rest0 as [|next rest'].
  - discriminate.
  - change (Daemon.advance (raw :: next :: rest'))
      with (if (Js.trim raw =? "")%string
            then Daemon.advance (next :: rest')
            else inl (Daemon.mkInvocation (Js.trim raw) (next :: rest')))
      in H.
    change (Spec.framed handle (removelast (raw :: next :: rest')))
      with ((if (Js.trim raw =? "")%string then []
             else Spec.answer_events handle (Js.trim raw))
            ++ Spec.framed handle (removelast (next :: rest')))%list.
    change (last (raw :: next :: rest') "")
      with (last (next :: rest') "").
    destruct (Js.trim raw =? "")%string.
    + destruct (IH H) as (Hf & Hl & Hlen).
      split; [exact Hf|split; [exact Hl|simpl in *; lia]].
    + inversion H; subst.
      split; [reflexivity|split; [reflexivity|simpl; lia]].
Qed.

(** Resuming the only suspended invocation. *)
Lemma resume_single (s : Daemon.State) (invocation : Daemon.Invocation) :
  Daemon.suspended s = [invocation] ->
  resume 0 s
  = let tr :=
      (Daemon.log s
       ++ Spec.answer_events handle (Daemon.awaited invocation))%list in
    match Daemon.advance (Daemon.remaining invocation) with
    | inr fragment => Daemon.mkState fragment tr []
    | inl next => Daemon.mkState (Daemon.buffer s) tr [next]
    end.
Proof.
  intros Hs.
  unfold resume, Daemon.resume.
  rewrite Hs; simpl nth_error; cbv iota.
  rewrite answer_run; fold handle.
  reflexivity.
Qed.

Lemma settle_single (fuel : nat) :
  forall (line buf : string) (rest : list string) (tr : list Async.Event),
    (List.length rest < fuel)%nat ->
    settle fuel (Daemon.mkState buf tr [Daemon.mkInvocation line rest])
    = Daemon.mkState (last rest "")
        (tr ++ Spec.answer_events handle line
         ++ Spec.framed handle (removelast rest))%list [].
Proof.
  induction fuel as [|fuel IH]; intros line buf rest tr Hlen; [lia|].
  change (settle (S fuel)
            (Daemon.mkState buf tr [Daemon.mkInvocation line rest]))
    with (settle fuel
            (resume 0
               (Daemon.mkState buf tr [Daemon.mkInvocation line rest]))).
  rewrite (resume_single
             (Daemon.mkState buf tr [Daemon.mkInvocation line rest])
             (Daemon.mkInvocation line rest) eq_refl).
  cbn [Daemon.log Daemon.awaited Daemon.remaining Daemon.buffer]; cbv zeta.
  destruct (Daemon.advance rest) as [[line' rest']|fragment] eqn:Ha.
  - destruct (advance_invocation _ _ _ Ha) as (Hf & Hl & Hlt).
    rewrite IH by lia.
    rewrite Hf, Hl, <- !app_assoc; reflexivity.
  - destruct (advance_fragment _ _ Ha) as (Hf & Hl).
    rewrite Hf, Hl, app_nil_r.
    destruct fuel; reflexivity.
Qed.

(** With nothing suspended, delivering a chunk and letting its invocation
    run to its end is the callback run to completion. *)
Lemma sequential_delivery (s : Daemon.State) (chunk : string) :
  Daemon.suspended s = [] ->
  let lines := Js.split "010" (Daemon.buffer s ++ chunk) in
  let s' := settle (List.length lines) (deliver chunk s) in
  Daemon.suspended s' = []
  /\ Daemon.on_data mcpConfig supabase parse inherited (Daemon.buffer s)
       chunk (Daemon.log s)
     = (Daemon.log s', Js.Normal (Daemon.buffer s')).
Proof.
  intros Hs lines s'.
  rewrite on_data_run; fold handle lines.
  unfold s', deliver, Daemon.deliver; fold lines; rewrite Hs.
  destruct (Daemon.advance lines) as [[line rest]|fragment] eqn:Ha.
  - destruct (advance_invocation _ _ _ Ha) as (Hf & Hl & Hlt).
    simpl app.
    rewrite (settle_single _ line _ rest (Daemon.log s) Hlt).
    cbn [Daemon.suspended Daemon.log Daemon.buffer].
    rewrite Hf, Hl; split; reflexivity.
  - destruct (advance_fragment _ _ Ha) as (Hf & Hl).
    assert (Hsettle : forall fuel st,
               Daemon.suspended st = [] -> settle fuel st = st)
      by (intros [|fuel] st Hst; [reflexivity|];
          unfold settle; simpl; rewrite Hst; reflexivity).
    rewrite Hsettle by reflexivity.
    cbn [Daemon.suspended Daemon.log Daemon.buffer].
    rewrite Hf, Hl, app_nil_r; split; reflexivity.
Qed.

End Reentrancy.

(** A second chunk delivered while the first invocation awaits its
    response: the second invocation splits a buffer that still holds the
    first line, and the request with id 2 is answered twice. *)
Example reentrant_callback_answers_twice :
  let s :=
    Daemon.schedule Sample.mcpConfig (Some (MemDb.client Sample.db))
      Sample.parse Sample.inherited
      [Daemon.Deliver (Sample.get_users_line "p1" ++ Js.LF);
       Daemon.Deliver (Sample.listTools_line ++ Js.LF);
       Daemon.Resume 0; Daemon.Resume 0; Daemon.Resume 0]
      Daemon.initial in
  map (fun r => match r with
                | JsonRpc.success id _ | JsonRpc.error id _ => id
                end)
    (Async.written (Daemon.log s))
  = [Js.Num 2; Js.Num 2; Js.Num 1]
  /\ Daemon.suspended s = [].
Proof. split; reflexivity. Qed.

(** The same, the first invocation ending last: it assigns the last part
    of its own array to [inputBuffer], and the fragment received with the
    second chunk is lost. *)
Example reentrant_callback_loses_fragment :
  let s :=
    Daemon.schedule Sample.mcpConfig (Some (MemDb.client Sample.db))
      Sample.parse Sample.inherited
      [Daemon.Deliver (Sample.get_users_line "p1" ++ Js.LF);
       Daemon.Deliver (Sample.listTools_line ++ Js.LF ++ "partial");
       Daemon.Resume 1; Daemon.Resume 1; Daemon.Resume 0]
      Daemon.initial in
  Daemon.buffer s = "" /\ Daemon.suspended s = [].
Proof. split; reflexivity. Qed.

(* ================================================================== *)
(** * Further properties of the code *)
(* ================================================================== *)

(** ** The dispatcher: ids, unknown methods, [listTools] *)

(** X1.  [handleJsonRpc] always resolves with one response.  When
    [jsonrpc.parse] yields a request, the response carries the id of the
    request whatever the method does (result, unknown method, exception);
    otherwise it is an error with a null id and nothing is queried. *)
Theorem response_carries_request_id (mcpConfig : Js.Value)
    (supabase : option Supabase.Client)
    (parse : string -> Js.Completion JsonRpc.Parsed)
    (inherited : string -> option (Js.Value -> Js.Completion Js.Value))
    (message : string) (tr : list Async.Event) :
  exists tr' response,
    Daemon.handleJsonRpc mcpConfig supabase parse inherited message tr
    = (tr', Js.Normal response)
    /\ match parse message with
       | Js.Normal (JsonRpc.request payload) =>
           JsonRpc.id_of response = JsonRpc.id payload
       | _ =>
           tr' = tr
           /\ JsonRpc.id_of response = Js.Null
           /\ (JsonRpc.code_of response = Some (-32600)
               \/ JsonRpc.code_of response = Some (-32700))
       end.
Proof.
  unfold Daemon.handleJsonRpc, Async.try_catch, Async.bind, Async.lift,
    Async.ret.
  destruct (parse message) as [[payload|payload|]|msg]; simpl.
  - destruct (Daemon.methods _ _ _ _) as [implementation|].
    + destruct (implementation _ tr) as [tr' [result|msg]];
        eexists _, _; split; reflexivity.
    + eexists _, _; split; reflexivity.
  - eexists _, _; split; [reflexivity|auto].
  - eexists _, _; split; [reflexivity|auto].
  - eexists _, _; split; [reflexivity|auto].
Qed.

(** X2.  A request whose method is none of [listTools], [list_tables],
    [get_table_data] (the comparison is exact) and is not a property that
    [methods] inherits is answered with "method not found" (-32601) naming
    the method, with the id of the request, and nothing is queried.  A
    request for one of the three methods, or for an inherited property, is
    never answered so. *)
Theorem unknown_method_is_not_found (mcpConfig : Js.Value)
    (supabase : option Supabase.Client)
    (parse : string -> Js.Completion JsonRpc.Parsed)
    (inherited : string -> option (Js.Value -> Js.Completion Js.Value))
    (message : string) (payload : JsonRpc.Request) (tr : list Async.Event) :
  parse message = Js.Normal (JsonRpc.request payload) ->
  let method := JsonRpc.method payload in
  let registered :=
    ((method =? "listTools") || (method =? "list_tables")
     || (method =? "get_table_data"))%string in
  (registered = false -> inherited method = None ->
   Daemon.handleJsonRpc mcpConfig supabase parse inherited message tr
   = (tr,
      Js.Normal
        (JsonRpc.error (JsonRpc.id payload)
           (JsonRpc.methodNotFound ("Method '" ++ method ++ "' not found")))))
  /\ (registered = true \/ inherited method <> None ->
      forall tr' response,
        Daemon.handleJsonRpc mcpConfig supabase parse inherited message tr
        = (tr', Js.Normal response) ->
        JsonRpc.code_of response <> Some (-32601)).
Proof.
  intros Hp method registered.
  assert (Hm : Daemon.methods mcpConfig supabase inherited method = None
               <-> registered = false /\ inherited method = None).
  { unfold Daemon.methods, registered.
    destruct (method =? "listTools")%string; simpl;
      [split; [discriminate|intros [H _]; discriminate]|].
    destruct (method =? "list_tables")%string; simpl;
      [split; [discriminate|intros [H _]; discriminate]|].
    destruct (method =? "get_table_data")%string; simpl;
      [split; [discriminate|intros [H _]; discriminate]|].
    destruct (inherited method);
      [split; [discriminate|intros [_ H]; discriminate]|].
    split; auto. }
  split.
  - intros Hr Hi.
    unfold Daemon.handleJsonRpc, Async.try_catch, Async.bind, Async.lift,
      Async.ret.
    rewrite Hp; simpl; fold method.
    rewrite (proj2 Hm (conj Hr Hi)); reflexivity.
  - intros Hknown tr' response Hrun.
    destruct (Daemon.methods mcpConfig supabase inherited method)
      as [implementation|] eqn:Hlookup.
    + rewrite (handleJsonRpc_request mcpConfig supabase parse inherited
                 message payload implementation tr Hp Hlookup) in Hrun.
      destruct (implementation _ tr) as [tr1 [result|msg]];
        inversion Hrun; subst; discriminate.
    + destruct (proj1 Hm eq_refl) as [Hr Hi].
      destruct Hknown as [H|H]; [congruence|contradiction].
Qed.

Lemma unknown_method_is_not_found_witness :
  Daemon.handleJsonRpc Sample.mcpConfig (Some (MemDb.client Sample.db))
    (Sample.parse_as (JsonRpc.mkRequest "List_Tables" Js.Undefined (Js.Num 7)))
    Sample.inherited "line" []
  = ([],
     Js.Normal
       (JsonRpc.error (Js.Num 7)
          (JsonRpc.methodNotFound "Method 'List_Tables' not found"))).
Proof.
  apply (proj1 (unknown_method_is_not_found Sample.mcpConfig
                  (Some (MemDb.client Sample.db))
                  (Sample.parse_as
                     (JsonRpc.mkRequest "List_Tables" Js.Undefined (Js.Num 7)))
                  Sample.inherited "line"
                  (JsonRpc.mkRequest "List_Tables" Js.Undefined (Js.Num 7))
                  [] eq_refl));
    reflexivity.
Defined.

(** X3.  [listTools] is answered with the two tool descriptors whatever
    the parameters, the configuration and the client are, without any query;
    and every tool it advertises is a key of the method table whose required
    parameters are among its declared properties. *)
Theorem listTools_needs_no_client (mcpConfig : Js.Value)
    (supabase : option Supabase.Client)
    (parse : string -> Js.Completion JsonRpc.Parsed)
    (inherited : string -> option (Js.Value -> Js.Completion Js.Value))
    (message : string) (payload : JsonRpc.Request) (tr : list Async.Event) :
  parse message = Js.Normal (JsonRpc.request payload) ->
  JsonRpc.method payload = "listTools" ->
  Daemon.handleJsonRpc mcpConfig supabase parse inherited message tr
  = (tr,
     Js.Normal
       (JsonRpc.success (JsonRpc.id payload) (Data.ToolList Daemon.tools)))
  /\ map Data.tool_name Daemon.tools = ["list_tables"; "get_table_data"]
  /\ (forall tool,
        In tool Daemon.tools ->
        Daemon.methods mcpConfig supabase inherited (Data.tool_name tool)
        <> None
        /\ incl (Data.required tool) (map fst (Data.properties tool))).
Proof.
  intros Hp Hm; split; [|split].
  - rewrite (handleJsonRpc_request mcpConfig supabase parse inherited message
               payload (Daemon.listTools) tr Hp);
      [reflexivity|rewrite Hm; reflexivity].
  - reflexivity.
  - intros tool [<-|[<-|[]]]; split; try discriminate;
      intros x Hx; simpl in Hx |- *; intuition.
Qed.

Lemma listTools_needs_no_client_witness :
  Daemon.handleJsonRpc Js.Null None Sample.parse Sample.inherited
    Sample.listTools_line []
  = ([], Js.Normal (JsonRpc.success (Js.Num 1) (Data.ToolList Daemon.tools))).
Proof.
  apply (proj1 (listTools_needs_no_client Js.Null None Sample.parse
                  Sample.inherited Sample.listTools_line
                  (JsonRpc.mkRequest "listTools" Js.Undefined (Js.Num 1))
                  [] eq_refl eq_refl)).
Defined.

(** ** Start without credentials *)



(** ** Listing tables and fetching pages, on both transports *)

(** X5.  [data.map(table => ({ schema, name }))] gives a list exactly when
    [data] is an array none of whose elements is [null] or [undefined]:
    then there is one pair a row, in the order of the rows, holding the
    row's [table_schema] and [table_name] ([undefined] for a missing
    column).  Anything else, a [null] data included, throws instead of
    giving an empty list. *)
Theorem table_refs_maps_rows (data : Js.Value) :
  let pair row :=
    Data.mkTableRef (Js.get row "table_schema") (Js.get row "table_name") in
  (forall tables,
      Shared.table_refs data = Js.Normal tables <->
      exists rows,
        data = Js.Arr rows
        /\ Forall (fun row => Js.is_nullish row = false) rows
        /\ tables = map pair rows)
  /\ ((forall rows, data <> Js.Arr rows) ->
      exists msg, Shared.table_refs data = Js.Throw msg).
Proof.
  intros pair.
  assert (Hrows : forall rows tables,
             Shared.map_rows Shared.table_ref rows = Js.Normal tables <->
             Forall (fun row => Js.is_nullish row = false) rows
             /\ tables = map pair rows).
  { induction rows as [|row rows IH]; intros tables; simpl.
    - split.
      + intros H; inversion H; split; [constructor|reflexivity].
      + intros [_ ->]; reflexivity.
    - unfold Shared.table_ref at 1, Js.member.
      destruct row; simpl;
        try (split;
             [discriminate
             |intros [HF _]; inversion HF; subst; discriminate]);
        (destruct (Shared.map_rows Shared.table_ref rows) as [bs|m] eqn:E;
         [destruct (proj1 (IH bs) eq_refl) as [HF ->];
          split;
          [intros H; inversion H; subst; split;
           [constructor; [reflexivity|exact HF]|reflexivity]
          |intros [_ ->]; reflexivity]
         |split;
          [discriminate
          |intros [HF ->]; inversion HF; subst;
           pose proof (proj2 (IH (map pair rows)) (conj H2 eq_refl));
           discriminate]]). }
  split.
  - intros tables; split.
    + intros H; destruct data; simpl in H; try discriminate.
      destruct (proj1 (Hrows _ _) H) as [HF ->].
      eexists; repeat split; assumption.
    + intros (rows & -> & HF & ->); simpl.
      apply Hrows; split; [exact HF|reflexivity].
  - intros Hnot; destruct data; simpl; try (eexists; reflexivity).
    exfalso; exact (Hnot _ eq_refl).
Qed.

Lemma table_refs_maps_rows_witness :
  Shared.table_refs (Js.Arr [Js.Obj [("table_name", Js.Str "users")]])
  = Js.Normal [Data.mkTableRef Js.Undefined (Js.Str "users")]
  /\ exists msg, Shared.table_refs Js.Null = Js.Throw msg.
Proof.
  split.
  - apply (proj1 (table_refs_maps_rows _)).
    eexists; split; [reflexivity|split; [|reflexivity]].
    repeat constructor.
  - apply (proj2 (table_refs_maps_rows Js.Null)).
    intros rows; discriminate.
Defined.

(** X6.  Listing tables makes exactly one query on either transport, and
    the two transports report the same outcome of it: the same tables, as
    a result on STDIO and with status 200 on HTTP; or the message of the
    same caught error, interpolated after "Error listing tables: " on STDIO
    and as the message of the reply with status 500 on HTTP.  When the error
    has no message, STDIO says "undefined" and the reply holds [null]. *)
Theorem tables_transports_agree (client : Supabase.Client) (now : string)
    (req : Server.TablesRequest) (mcpConfig params : Js.Value) :
  Js.is_nullish mcpConfig = false ->
  exists outcome : list Data.TableRef + Js.Message,
    Async.run (Daemon.list_tables mcpConfig (Some client) params)
    = ([Async.Queried Shared.tables_query],
       match outcome with
       | inl tables => Js.Normal (Data.TableList tables)
       | inr cause =>
           Js.Throw ("Error listing tables: " ++ Js.message_text cause)
       end)
    /\ Async.run (Server.route_tables client now req)
       = ([Async.Queried Shared.tables_query],
          Js.Normal
            match outcome with
            | inl tables => Server.tables_reply now tables
            | inr cause =>
                Server.mkReply 500
                  (Server.mkEnvelope false None (Js.message_or_null cause)
                     now)
            end).
Proof.
  intros Hc.
  rewrite (list_tables_run mcpConfig client Hc params).
  unfold Async.run, Server.route_tables, Async.try_catch, Async.bind,
    Async.await, Async.lift, Async.ret, Async.throw.
  destruct (client Shared.tables_query) as [r|msg].
  - destruct (Supabase.error r) as [e|].
    + exists (inr (Supabase.message e)); split; reflexivity.
    + destruct (Shared.table_refs (Supabase.data r)) as [tables|msg].
      * exists (inl tables); split; reflexivity.
      * exists (inr (Js.Text msg)); split; reflexivity.
  - exists (inr (Js.Text msg)); split; reflexivity.
Qed.

(** A client that resolves with an error object that has no [message]. *)
Lemma tables_transports_agree_witness :
  exists outcome : list Data.TableRef + Js.Message,
    Async.run
      (Daemon.list_tables Sample.mcpConfig (Some Sample.failing) (Js.Obj []))
    = ([Async.Queried Shared.tables_query],
       match outcome with
       | inl tables => Js.Normal (Data.TableList tables)
       | inr cause =>
           Js.Throw ("Error listing tables: " ++ Js.message_text cause)
       end)
    /\ Async.run
         (Server.route_tables Sample.failing Sample.now
            (Server.mkTablesRequest "p1"))
       = ([Async.Queried Shared.tables_query],
          Js.Normal
            match outcome with
            | inl tables => Server.tables_reply Sample.now tables
            | inr cause =>
                Server.mkReply 500
                  (Server.mkEnvelope false None (Js.message_or_null cause)
                     Sample.now)
            end).
Proof.
  apply (tables_transports_agree Sample.failing Sample.now
           (Server.mkTablesRequest "p1") Sample.mcpConfig (Js.Obj []) eq_refl).
Defined.

(** "Error listing tables: undefined" on STDIO, [message: null] on HTTP. *)
Example list_error_without_message :
  Async.run
    (Daemon.list_tables Sample.mcpConfig (Some Sample.failing) (Js.Obj []))
  = ([Async.Queried Shared.tables_query],
     Js.Throw "Error listing tables: undefined")
  /\ Async.run
       (Server.route_tables Sample.failing Sample.now
          (Server.mkTablesRequest "p1"))
     = ([Async.Queried Shared.tables_query],
        Js.Normal
          (Server.mkReply 500 (Server.mkEnvelope false None None Sample.now))).
Proof. split; reflexivity. Qed.



(** An error object without [message], on the fetch of a page of a table
    that exists. *)
Example fetch_error_without_message :
  let client :=
    fun q =>
      if Supabase.is_single q then Sample.full q else Sample.failing q in
  snd (Async.run
         (Daemon.get_table_data Sample.mcpConfig (Some client)
            (Js.Obj [("table_name", Js.Str "users")])))
  = Js.Throw "Error fetching data from table users: undefined"
  /\ snd (Async.run
            (Server.route_data client Sample.now
               (Server.mkDataRequest "p1" "users" (Js.Obj []))))
     = Js.Normal
         (Server.mkReply 500 (Server.mkEnvelope false None None Sample.now)).
Proof. split; reflexivity. Qed.


(** X9.  Every route of the server replies, never throwing, and its reply
    is consistent: status 200, 404 or 500; [success] true exactly for 200; a
    failure without data; a reply with status 404 with a message; a reply
    with data without a message.  The health check and the fallback make no
    query, and the tables route never answers 404. *)
Theorem replies_are_consistent (client : Supabase.Client) (now : string) :
  (exists reply,
      Async.run (Server.route_root now) = ([], Js.Normal reply)
      /\ Spec.consistent_reply reply /\ Server.status reply = 200)
  /\ (exists reply,
        Async.run (Server.route_fallback now) = ([], Js.Normal reply)
        /\ Spec.consistent_reply reply /\ Server.status reply = 404)
  /\ (forall req,
        exists tr reply,
          Async.run (Server.route_tables client now req)
          = (tr, Js.Normal reply)
          /\ Spec.consistent_reply reply /\ Server.status reply <> 404)
  /\ (forall req,
        exists tr reply,
          Async.run (Server.route_data client now req)
          = (tr, Js.Normal reply)
          /\ Spec.consistent_reply reply).
Proof.
  assert (Hbody : forall status data message,
             (status = 200 \/ status = 404 \/ status = 500) ->
             (status = 200 -> data <> None -> message = None) ->
             (status <> 200 -> data = None) ->
             (status = 404 -> message <> None) ->
             Spec.consistent_reply
               (Server.mkReply status
                  (Server.mkEnvelope (status =? 200) data message now))).
  { intros status data message Hs H200 Hfail H404.
    unfold Spec.consistent_reply; cbn [Server.body Server.status
      Server.success Server.data Server.message].
    split; [exact Hs|split; [reflexivity|split; [|split]]].
    - intros Hf; apply Hfail; intros ->; discriminate.
    - exact H404.
    - intros Hd.
      destruct (Z.eq_dec status 200) as [H|H]; [exact (H200 H Hd)|].
      exfalso; exact (Hd (Hfail H)). }
  assert (Hfail : forall msg,
             Spec.consistent_reply (Server.failure_reply now msg)).
  { intros msg; apply (Hbody 500 None (Some msg)); try discriminate; auto;
      try (intros Hne; exfalso; exact (Hne eq_refl)). }
  assert (Herr : forall e, Spec.consistent_reply (Server.error_reply now e)).
  { intros e; apply (Hbody 500 None); try discriminate; auto;
      try (intros Hne; exfalso; exact (Hne eq_refl)). }
  split; [|split; [|split]].
  - eexists; split; [reflexivity|split; [|reflexivity]].
    apply (Hbody 200 None); try discriminate; auto;
      try (intros Hne; exfalso; exact (Hne eq_refl)).
    intros _ H; contradiction.
  - eexists; split; [reflexivity|split; [|reflexivity]].
    apply (Hbody 404 None); try discriminate; auto;
      try (intros Hne; exfalso; exact (Hne eq_refl)).
  - intros req.
    unfold Async.run, Server.route_tables, Async.try_catch, Async.bind,
      Async.await, Async.lift, Async.ret, Async.throw.
    destruct (client Shared.tables_query) as [r|msg];
      [|eexists _, _; split; [reflexivity|split; [apply Hfail|discriminate]]].
    destruct (Supabase.error r) as [e|];
      [eexists _, _; split; [reflexivity|split; [apply Herr|discriminate]]|].
    destruct (Shared.table_refs (Supabase.data r)) as [tables|msg];
      [|eexists _, _; split; [reflexivity|split; [apply Hfail|discriminate]]].
    eexists _, _; split; [reflexivity|split; [|discriminate]].
    apply (Hbody 200 (Some _) None); try discriminate; auto;
      try (intros Hne; exfalso; exact (Hne eq_refl)).
  - intros req.
    destruct (client (Shared.table_check_query (Server.tableName req)))
      as [r|msg] eqn:Hcheck.
    + destruct (Shared.check_failed r) eqn:Hf.
      * eexists _, _; split;
          [exact (route_data_check_failed client now req r Hcheck Hf)|].
        apply (Hbody 404 None); try discriminate; auto;
      try (intros Hne; exfalso; exact (Hne eq_refl)).
      * destruct (client
                    (Shared.fetch_query (Server.tableName req)
                       (Js.mul
                          (Shared.page_of (Js.get (Server.query req) "page"))
                          (Shared.limit_of
                             (Js.get (Server.query req) "limit")))
                       (Shared.limit_of (Js.get (Server.query req) "limit"))))
          as [r2|msg] eqn:Hfetch.
        -- destruct (Supabase.error r2) as [e|] eqn:He.
           ++ eexists _, _; split;
                [exact (route_data_fetch_error client now req r r2 e Hcheck
                          Hf Hfetch He)|apply Herr].
           ++ eexists _, _; split;
                [exact (route_data_success client now req r r2 Hcheck Hf
                          Hfetch He)|].
              apply (Hbody 200 (Some _) None); try discriminate; auto;
      try (intros Hne; exfalso; exact (Hne eq_refl)).
        -- eexists _, _; split;
             [exact (route_data_fetch_rejected client now req r msg Hcheck
                       Hf Hfetch)|apply Hfail].
    + eexists _, _; split;
        [exact (route_data_check_rejected client now req msg Hcheck)
        |apply Hfail].
Qed.

(** ** Numeric pagination parameters *)

Lemma digits_step (a : Z) (c : ascii) (s : string) :
  Js.digits 10 (Some a) (String c s)
  = match Js.digitValue 10 c with
    | Some d => Js.digits 10 (Some (a * 10 + d)) s
    | None => Some a
    end.
Proof. reflexivity. Qed.

Ltac digit_case IH :=
  simpl NilEmpty.string_of_uint; rewrite digits_step;
  match goal with
  | |- context [Js.digitValue 10 ?c] =>
      let v := eval vm_compute in (Js.digitValue 10 c) in
      change (Js.digitValue 10 c) with v
  end;
  cbv iota beta; cbn [Pos.of_uint_acc]; rewrite <- IH; f_equal; f_equal; lia.

(** Reading the digits of a decimal numeral, from a positive accumulator. *)
Lemma digits_of_uint_acc (d : Decimal.uint) :
  forall acc : positive,
    Js.digits 10 (Some (Z.pos acc)) (NilEmpty.string_of_uint d)
    = Some (Z.pos (Pos.of_uint_acc d acc)).
Proof.
  induction d as [|d IH|d IH|d IH|d IH|d IH|d IH|d IH|d IH|d IH|d IH];
    intros acc; [reflexivity|digit_case IH..].
Qed.

Lemma digits_of_uint (d : Decimal.uint) :
  Js.digits 10 (Some 0) (NilEmpty.string_of_uint d)
  = Some (Z.of_N (Pos.of_uint d)).
Proof.
  induction d as [|d IH|d IH|d IH|d IH|d IH|d IH|d IH|d IH|d IH|d IH];
    [reflexivity|exact IH|..];
    simpl NilEmpty.string_of_uint; rewrite digits_step;
    match goal with
    | |- context [Js.digitValue 10 ?c] =>
        let v := eval vm_compute in (Js.digitValue 10 c) in
        change (Js.digitValue 10 c) with v
    end;
    cbv iota beta; cbn [Pos.of_uint];
    apply digits_of_uint_acc.
Qed.

(** [parseInt] on an unsigned decimal numeral: no white space, sign or
    hexadecimal prefix to strip. *)
Lemma parseInt_numeral (d : Decimal.uint) :
  d <> Decimal.Nil ->
  Js.parseInt (Js.Str (NilEmpty.string_of_uint d))
  = Some (Js.to_double (Z.of_N (Pos.of_uint d)))
  /\ Js.parseInt (Js.Str (String "-" (NilEmpty.string_of_uint d)))
     = Some (Js.to_double (- Z.of_N (Pos.of_uint d))).
Proof.
  intros Hd.
  assert (Hnone : Js.digits 10 None (NilEmpty.string_of_uint d)
                  = Some (Z.of_N (Pos.of_uint d))).
  { rewrite <- digits_of_uint.
    destruct d; [contradiction|reflexivity..]. }
  assert (Hplain :
            Js.parseInt (Js.Str (NilEmpty.string_of_uint d))
            = match Js.digits 10 None (NilEmpty.string_of_uint d) with
              | Some m => Some (Js.to_double (1 * m))
              | None => None
              end
            /\ Js.parseInt (Js.Str (String "-" (NilEmpty.string_of_uint d)))
               = match Js.digits 10 None (NilEmpty.string_of_uint d) with
                 | Some m => Some (Js.to_double (-1 * m))
                 | None => None
                 end).
  { destruct d as [|d|d|d|d|d|d|d|d|d|d]; [contradiction|..];
      destruct d; split; reflexivity. }
  destruct Hplain as [-> ->]; rewrite Hnone.
  split; f_equal; f_equal; lia.
Qed.

(** [parseInt] reads the digits of an integer as the double nearest to
    it. *)
Lemma parseInt_digits_of (n : Z) :
  Js.parseInt (Js.Str (Js.Z_to_string n)) = Some (Js.to_double n).
Proof.
  unfold Js.Z_to_string.
  destruct n as [|p|p]; [reflexivity| |]; simpl Z.to_int.
  - unfold NilZero.string_of_int, NilZero.string_of_uint.
    pose proof (DecimalPos.Unsigned.to_uint_nonnil p) as Hnil.
    destruct (parseInt_numeral (Pos.to_uint p) Hnil) as [Hp _].
    rewrite DecimalPos.Unsigned.of_to in Hp.
    destruct (Pos.to_uint p); [contradiction|exact Hp..].
  - unfold NilZero.string_of_int, NilZero.string_of_uint.
    pose proof (DecimalPos.Unsigned.to_uint_nonnil p) as Hnil.
    destruct (parseInt_numeral (Pos.to_uint p) Hnil) as [_ Hp].
    rewrite DecimalPos.Unsigned.of_to in Hp.
    destruct (Pos.to_uint p); [contradiction|exact Hp..].
Qed.

(** Up to 2^53 a number prints as the digits of the integer it holds. *)
Lemma ToString_safe_integer (n : Z) :
  Z.abs n <= Js.two53 -> Js.ToString (Js.Num n) = Js.Z_to_string n.
Proof.
  intros Hn.
  change (Js.ToString (Js.Num n)) with (Js.Number_toString (Js.to_double n)).
  rewrite (to_double_exact n Hn).
  unfold Js.Number_toString.
  destruct (Z.leb_spec (Z.abs n) Js.two53) as [_|Hgt]; [|lia].
  destruct n as [|p|p]; reflexivity.
Qed.

(** X10.  A limit or page given as a JSON number that holds an integer of
    at most 2^53 in absolute value, or as the decimal text of such an
    integer, is read back exactly: the limit is that integer unless it is 0
    (then 10), the page is that integer. *)
Theorem numeric_pagination_is_exact (n : Z) :
  Z.abs n <= Js.two53 ->
  Js.ToString (Js.Num n) = Js.Z_to_string n
  /\ Js.parseInt (Js.Num n) = Some n
  /\ Js.parseInt (Js.Str (Js.Z_to_string n)) = Some n
  /\ Shared.limit_of (Js.Num n) = (if n =? 0 then 10 else n)
  /\ Shared.page_of (Js.Num n) = n.
Proof.
  intros Hn.
  assert (H : Js.parseInt (Js.Str (Js.Z_to_string n)) = Some n)
    by (rewrite parseInt_digits_of, (to_double_exact n Hn); reflexivity).
  assert (Hnum : Js.parseInt (Js.Num n) = Some n).
  { rewrite <- H; unfold Js.parseInt.
    rewrite (ToString_safe_integer n Hn); reflexivity. }
  split; [exact (ToString_safe_integer n Hn)|].
  split; [exact Hnum|split; [exact H|split]].
  - unfold Shared.limit_of; rewrite Hnum; reflexivity.
  - unfold Shared.page_of; rewrite Hnum; simpl.
    destruct (Z.eqb_spec n 0); [subst; reflexivity|reflexivity].
Qed.

(** The largest integer up to which every integer is read back exactly. *)
Lemma numeric_pagination_is_exact_witness :
  Js.parseInt (Js.Num 9007199254740992) = Some 9007199254740992
  /\ Shared.limit_of (Js.Num 9007199254740992) = 9007199254740992
  /\ Shared.page_of (Js.Num (-25)) = -25.
Proof.
  pose proof (numeric_pagination_is_exact 9007199254740992
                ltac:(vm_compute; discriminate)) as H1.
  pose proof (numeric_pagination_is_exact (-25)
                ltac:(vm_compute; discriminate)) as H2.
  split; [exact (proj1 (proj2 H1))|].
  split; [exact (proj1 (proj2 (proj2 (proj2 H1))))|].
  exact (proj2 (proj2 (proj2 (proj2 H2)))).
Defined.

(** ** The framer: nothing lost, and what re-entrancy does *)

Lemma split_reassembles (sep : ascii) (s : string) :
  fold_right (fun l acc => l ++ String sep acc)
    (last (Js.split sep s) "") (removelast (Js.split sep s))
  = s.
Proof.
  induction s as [|c r IH]; [reflexivity|].
  pose proof (split_nonempty sep r) as Hne.
  simpl Js.split.
  destruct (Ascii.eqb_spec c sep) as [->|Hc].
  - destruct (Js.split sep r) as [|f rest]; [contradiction|].
    change (removelast ("" :: f :: rest)) with ("" :: removelast (f :: rest)).
    change (last ("" :: f :: rest) "") with (last (f :: rest) "").
    set (complete := removelast (f :: rest)) in *.
    set (fragment := last (f :: rest) "") in *.
    simpl; rewrite IH; reflexivity.
  - destruct (Js.split sep r) as [|f [|g rest]]; [contradiction| |].
    + simpl in IH |- *; rewrite IH; reflexivity.
    + change (removelast (String c f :: g :: rest))
        with (String c f :: removelast (g :: rest)).
      change (last (String c f :: g :: rest) "") with (last (g :: rest) "").
      change (removelast (f :: g :: rest))
        with (f :: removelast (g :: rest)) in IH.
      change (last (f :: g :: rest) "") with (last (g :: rest) "") in IH.
      set (complete := removelast (g :: rest)) in *.
      set (fragment := last (g :: rest) "") in *.
      simpl in IH |- *; rewrite IH; reflexivity.
Qed.

Lemma split_parts_hold_no_separator (sep : ascii) (s : string) :
  Forall (fun l => ~ In sep (list_ascii_of_string l)) (Js.split sep s).
Proof.
  induction s as [|c r IH]; simpl.
  - constructor; [intros []|constructor].
  - destruct (Ascii.eqb_spec c sep) as [->|Hc].
    + constructor; [intros []|exact IH].
    + destruct (Js.split sep r) as [|f rest]; [repeat constructor|].
      * intros [H|[]]; congruence.
      * inversion IH; subst.
        constructor; [|assumption].
        intros [H|H]; [congruence|contradiction].
Qed.

(** X11.  Run one invocation after the other, the callback loses and
    invents nothing: the lines it has handled, each followed by a line
    feed, then the buffer it retains, spell exactly the input received so
    far; and neither a handled line nor the retained buffer holds a line
    feed. *)
Theorem framer_loses_nothing (mcpConfig : Js.Value)
    (supabase : option Supabase.Client)
    (parse : string -> Js.Completion JsonRpc.Parsed)
    (inherited : string -> option (Js.Value -> Js.Completion Js.Value))
    (chunks : list string) :
  exists (complete : list string) (inputBuffer : string),
    Async.run (Daemon.on_chunks mcpConfig supabase parse inherited "" chunks)
    = (Spec.framed (Daemon.handleJsonRpc mcpConfig supabase parse inherited)
         complete,
       Js.Normal inputBuffer)
    /\ fold_right (fun l acc => l ++ Js.LF ++ acc) inputBuffer complete
       = fold_right String.append "" chunks
    /\ Forall (fun l => ~ In "010"%char (list_ascii_of_string l))
         (complete ++ [inputBuffer]).
Proof.
  pose (input := fold_right String.append "" chunks).
  exists (removelast (Js.split "010" input)), (last (Js.split "010" input) "").
  split; [|split].
  - unfold Async.run.
    rewrite (on_chunks_run mcpConfig supabase parse inherited chunks "" []
               eq_refl).
    reflexivity.
  - exact (split_reassembles "010" input).
  - rewrite <- app_removelast_last by apply split_nonempty.
    apply split_parts_hold_no_separator.
Qed.

Section ReentrantDelivery.

Variable mcpConfig : Js.Value.
Variable supabase : option Supabase.Client.
Variable parse : string -> Js.Completion JsonRpc.Parsed.
Variable inherited : string -> option (Js.Value -> Js.Completion Js.Value).

Let handle := Daemon.handleJsonRpc mcpConfig supabase parse inherited.
Let schedule := Daemon.schedule mcpConfig supabase parse inherited.

(** The state after a line is delivered, and then a second chunk while the
    invocation for the line awaits its response: both invocations await the
    response to the same line. *)
Lemma two_deliveries (line chunk : string) :
  Js.split "010" line = [line] ->
  Js.trim line <> "" ->
  schedule [Daemon.Deliver (line ++ Js.LF); Daemon.Deliver chunk]
    Daemon.initial
  = Daemon.mkState ((line ++ Js.LF) ++ chunk) []
      [Daemon.mkInvocation (Js.trim line) [""];
       Daemon.mkInvocation (Js.trim line) (Js.split "010" chunk)].
Proof.
  intros Hline Hnb.
  assert (Hblank : (Js.trim line =? "")%string = false)
    by (apply String.eqb_neq; exact Hnb).
  unfold schedule, Daemon.schedule; simpl fold_left.
  unfold Daemon.deliver at 2; simpl Daemon.buffer.
  unfold Js.LF at 1; simpl append at 1.
  rewrite (split_line "010" line "" Hline).
  simpl Js.split; simpl Daemon.advance; rewrite Hblank.
  unfold Daemon.deliver; simpl Daemon.buffer.
  replace ((line ++ Js.LF) ++ chunk) with (line ++ String "010" chunk)
    by (unfold Js.LF; rewrite append_assoc; reflexivity).
  rewrite (split_line "010" line chunk Hline).
  pose proof (split_nonempty "010" chunk) as Hne.
  destruct (Js.split "010" chunk) as [|f rest] eqn:E; [contradiction|].
  change (Daemon.advance (line :: f :: rest))
    with (if (Js.trim line =? "")%string
          then Daemon.advance (f :: rest)
          else inl (Daemon.mkInvocation (Js.trim line) (f :: rest))).
  rewrite Hblank; reflexivity.
Qed.

End ReentrantDelivery.

(** X12.  When a second chunk is delivered while the invocation for a
    line still awaits its response, the second invocation splits a buffer
    that still holds that line: once both have resumed, the line has been
    answered twice, whatever the second chunk is.  If the second chunk is a
    fragment without a line feed and the first invocation ends last, the
    buffer is left empty: the fragment is lost. *)
Theorem reentrant_delivery_answers_twice (mcpConfig : Js.Value)
    (supabase : option Supabase.Client)
    (parse : string -> Js.Completion JsonRpc.Parsed)
    (inherited : string -> option (Js.Value -> Js.Completion Js.Value))
    (line : string) :
  Js.split "010" line = [line] ->
  Js.trim line <> "" ->
  let schedule := Daemon.schedule mcpConfig supabase parse inherited in
  exists response,
    snd (Async.run
           (Daemon.handleJsonRpc mcpConfig supabase parse inherited
              (Js.trim line)))
    = Js.Normal response
    /\ (forall chunk,
          Async.written
            (Daemon.log
               (schedule
                  [Daemon.Deliver (line ++ Js.LF); Daemon.Deliver chunk;
                   Daemon.Resume 0; Daemon.Resume 0]
                  Daemon.initial))
          = [response; response])
    /\ (forall fragment,
          Js.split "010" fragment = [fragment] ->
          let s :=
            schedule
              [Daemon.Deliver (line ++ Js.LF); Daemon.Deliver fragment;
               Daemon.Resume 1; Daemon.Resume 0]
              Daemon.initial in
          Async.written (Daemon.log s) = [response; response]
          /\ Daemon.suspended s = []
          /\ Daemon.buffer s = "").
Proof.
  intros Hline Hnb schedule.
  pose (handle := Daemon.handleJsonRpc mcpConfig supabase parse inherited).
  destruct (answer_events_shape mcpConfig supabase parse inherited
              (Js.trim line)) as (qs & response & Hrun & Hev & Hw).
  fold handle in Hrun, Hev, Hw.
  exists response; split; [fold handle; rewrite Hrun; reflexivity|].
  assert (Hsplit : forall actions s,
             schedule (actions ++ [Daemon.Resume 0; Daemon.Resume 0])%list s
             = Daemon.resume mcpConfig supabase parse inherited 0
                 (Daemon.resume mcpConfig supabase parse inherited 0
                    (schedule actions s))).
  { intros actions s; unfold schedule, Daemon.schedule.
    rewrite fold_left_app; reflexivity. }
  assert (Hsplit' : forall actions s,
             schedule (actions ++ [Daemon.Resume 1; Daemon.Resume 0])%list s
             = Daemon.resume mcpConfig supabase parse inherited 0
                 (Daemon.resume mcpConfig supabase parse inherited 1
                    (schedule actions s))).
  { intros actions s; unfold schedule, Daemon.schedule.
    rewrite fold_left_app; reflexivity. }
  split.
  - intros chunk.
    change [Daemon.Deliver (line ++ Js.LF); Daemon.Deliver chunk;
            Daemon.Resume 0; Daemon.Resume 0]
      with ([Daemon.Deliver (line ++ Js.LF); Daemon.Deliver chunk]
            ++ [Daemon.Resume 0; Daemon.Resume 0])%list.
    rewrite Hsplit.
    unfold schedule.
    rewrite (two_deliveries mcpConfig supabase parse inherited line chunk
               Hline Hnb).
    unfold Daemon.resume at 2.
    cbn [Daemon.suspended nth_error Daemon.awaited Daemon.log
         Daemon.remaining Daemon.buffer].
    rewrite answer_run; fold handle.
    cbn [Daemon.advance Daemon.remove_nth app].
    unfold Daemon.resume.
    cbn [Daemon.suspended nth_error Daemon.awaited Daemon.log
         Daemon.remaining Daemon.buffer].
    rewrite answer_run; fold handle.
    destruct (Daemon.advance (Js.split "010" chunk));
      cbn [Daemon.log]; rewrite written_app, Hw; reflexivity.
  - intros fragment Hfrag s.
    assert (Hs : s = Daemon.mkState ""
                       (Spec.answer_events handle (Js.trim line)
                        ++ Spec.answer_events handle (Js.trim line))%list []).
    { unfold s.
      change [Daemon.Deliver (line ++ Js.LF); Daemon.Deliver fragment;
              Daemon.Resume 1; Daemon.Resume 0]
        with ([Daemon.Deliver (line ++ Js.LF); Daemon.Deliver fragment]
              ++ [Daemon.Resume 1; Daemon.Resume 0])%list.
      rewrite Hsplit'.
      unfold schedule.
      rewrite (two_deliveries mcpConfig supabase parse inherited line
                 fragment Hline Hnb).
      rewrite Hfrag.
      unfold Daemon.resume at 2.
      cbn [Daemon.suspended nth_error Daemon.awaited Daemon.log
           Daemon.remaining Daemon.buffer].
      rewrite answer_run; fold handle.
      cbn [Daemon.advance Daemon.remove_nth app].
      unfold Daemon.resume.
      cbn [Daemon.suspended nth_error Daemon.awaited Daemon.log
           Daemon.remaining Daemon.buffer].
      rewrite answer_run; fold handle.
      reflexivity. }
    rewrite Hs; cbn [Daemon.log Daemon.suspended Daemon.buffer].
    rewrite written_app, Hw.
    split; [reflexivity|split; reflexivity].
Qed.

Lemma reentrant_delivery_answers_twice_witness :
  exists response,
    snd (Async.run
           (Daemon.handleJsonRpc Sample.mcpConfig
              (Some (MemDb.client Sample.db)) Sample.parse Sample.inherited
              (Js.trim (Sample.get_users_line "p1"))))
    = Js.Normal response
    /\ Async.written
         (Daemon.log
            (Daemon.schedule Sample.mcpConfig (Some (MemDb.client Sample.db))
               Sample.parse Sample.inherited
               [Daemon.Deliver (Sample.get_users_line "p1" ++ Js.LF);
                Daemon.Deliver (Sample.listTools_line ++ Js.LF);
                Daemon.Resume 0; Daemon.Resume 0]
               Daemon.initial))
       = [response; response].
Proof.
  destruct (reentrant_delivery_answers_twice Sample.mcpConfig
              (Some (MemDb.client Sample.db)) Sample.parse Sample.inherited
              (Sample.get_users_line "p1") eq_refl ltac:(discriminate))
    as (response & Hrun & Htwice & _).
  exists response; split; [exact Hrun|].
  exact (Htwice (Sample.listTools_line ++ Js.LF)).
Defined.


(** ** Missing parameters *)

(** X13.  A [get_table_data] request that carries no [table_name], [limit]
    and [page] (its [params] omitted or empty) is not rejected: the table
    checked is the one named "undefined", and when that check passes the
    rows 0 to 9 are fetched, limit 10 and page 0 being reported. *)
Theorem missing_parameters_use_defaults (mcpConfig : Js.Value)
    (client : Supabase.Client)
    (parse : string -> Js.Completion JsonRpc.Parsed)
    (inherited : string -> option (Js.Value -> Js.Completion Js.Value))
    (message : string) (payload : JsonRpc.Request) :
  Js.is_nullish mcpConfig = false ->
  parse message = Js.Normal (JsonRpc.request payload) ->
  JsonRpc.method payload = "get_table_data" ->
  let params := Js.or (JsonRpc.params payload) (Js.Obj []) in
  Js.get params "table_name" = Js.Undefined ->
  Js.get params "limit" = Js.Undefined ->
  Js.get params "page" = Js.Undefined ->
  let handled :=
    Async.run
      (Daemon.handleJsonRpc mcpConfig (Some client) parse inherited message) in
  let check := Shared.table_check_query "undefined" in
  let fetch :=
    Supabase.mkQuery "undefined" "*" (Some "exact") [] None (Some (0, 9))
      false in
  (forall r,
      client check = Supabase.Resolved r ->
      Shared.check_failed r = true ->
      handled
      = ([Async.Queried check],
         Js.Normal
           (JsonRpc.error (JsonRpc.id payload)
              (JsonRpc.internalError
                 "Error fetching data from table undefined: Table 'undefined' not found"))))
  /\ (forall r r2,
        client check = Supabase.Resolved r ->
        Shared.check_failed r = false ->
        client fetch = Supabase.Resolved r2 ->
        Supabase.error r2 = None ->
        handled
        = ([Async.Queried check; Async.Queried fetch],
           Js.Normal
             (JsonRpc.success (JsonRpc.id payload)
                (Data.TablePage (Supabase.data r2)
                   (Shared.pagination (Supabase.count r2) 0 10))))).
Proof.
  intros Hc Hp Hm params Ht Hl Hpage handled check fetch.
  assert (Hhandled :
            handled
            = match Async.run
                      (Daemon.get_table_data mcpConfig (Some client) params)
              with
              | (tr', Js.Normal result) =>
                  (tr', Js.Normal (JsonRpc.success (JsonRpc.id payload) result))
              | (tr', Js.Throw msg) =>
                  (tr',
                   Js.Normal
                     (JsonRpc.error (JsonRpc.id payload)
                        (JsonRpc.internalError msg)))
              end).
  { unfold handled, Async.run.
    rewrite (handleJsonRpc_request mcpConfig (Some client) parse inherited
               message payload
               (Daemon.get_table_data mcpConfig (Some client)) [] Hp);
      [reflexivity|rewrite Hm; reflexivity]. }
  pose proof (get_table_data_run mcpConfig client Hc params) as Hrun.
  cbv zeta in Hrun; rewrite Ht, Hl, Hpage in Hrun.
  change (Js.ToString Js.Undefined) with "undefined" in Hrun.
  change (Shared.limit_of Js.Undefined) with 10 in Hrun.
  change (Shared.page_of Js.Undefined) with 0 in Hrun.
  change (Shared.table_check_query "undefined") with check in Hrun.
  change (Shared.fetch_query "undefined" (Js.mul 0 10) 10) with fetch in Hrun.
  split.
  - intros r Hr Hf.
    rewrite Hr, Hf in Hrun; rewrite Hhandled, Hrun; reflexivity.
  - intros r r2 Hr Hf Hr2 He.
    rewrite Hr, Hf, Hr2, He in Hrun; rewrite Hhandled, Hrun; reflexivity.
Qed.

Lemma missing_parameters_use_defaults_witness :
  Async.run
    (Daemon.handleJsonRpc Sample.mcpConfig (Some (MemDb.client Sample.db))
       (Sample.parse_as
          (JsonRpc.mkRequest "get_table_data" Js.Undefined (Js.Num 3)))
       Sample.inherited "line")
  = ([Async.Queried (Shared.table_check_query "undefined")],
     Js.Normal
       (JsonRpc.error (Js.Num 3)
          (JsonRpc.internalError
             "Error fetching data from table undefined: Table 'undefined' not found"))).
Proof.
  apply (proj1 (missing_parameters_use_defaults Sample.mcpConfig
                  (MemDb.client Sample.db)
                  (Sample.parse_as
                     (JsonRpc.mkRequest "get_table_data" Js.Undefined
                        (Js.Num 3)))
                  Sample.inherited "line"
                  (JsonRpc.mkRequest "get_table_data" Js.Undefined (Js.Num 3))
                  eq_refl eq_refl eq_refl eq_refl eq_refl eq_refl)
           (Supabase.mkResponse Js.Null (Some MemDb.not_single) None));
    reflexivity.
Defined.

(** ** From the list of tables to their rows *)

Lemma filter_unique {A} (f : A -> bool) (x : A) (l : list A) :
  NoDup l -> In x l -> (forall y, f y = true <-> y = x) ->
  filter f l = [x].
Proof.
  intros Hnd Hin Hf.
  induction l as [|a l IH]; [contradiction|].
  inversion Hnd as [|? ? Hnotin Hnd']; subst.
  simpl.
  destruct (f a) eqn:Hfa.
  - apply Hf in Hfa; subst a.
    rewrite filter_none; [reflexivity|].
    intros y Hy.
    destruct (f y) eqn:Hfy; [|reflexivity].
    apply Hf in Hfy; subst y; contradiction.
  - destruct Hin as [->|Hin].
    + rewrite (proj2 (Hf x) eq_refl) in Hfa; discriminate.
    + exact (IH Hnd' Hin).
Qed.

(** The existence check on a table that the catalog lists once in schema
    [public] resolves with its row. *)
Lemma check_present (db : MemDb.Database) (n : string) :
  NoDup (MemDb.catalog db) ->
  In ("public", n) (MemDb.catalog db) ->
  MemDb.client db (Shared.table_check_query n)
  = Supabase.Resolved
      (Supabase.mkResponse (Js.Obj [("table_name", Js.Str n)]) None None).
Proof.
  intros Hnd Hin.
  unfold MemDb.client, Shared.table_check_query; cbn.
  rewrite keep_catalog.
  rewrite (filter_ext _ _ (check_filters_catalog n)).
  rewrite (filter_unique _ ("public", n) _ Hnd Hin); [reflexivity|].
  intros [s m]; simpl; split.
  - intros H; apply andb_prop in H; destruct H as [H1 H2].
    apply String.eqb_eq in H1, H2; subst; reflexivity.
  - intros H; inversion H; subst.
    now rewrite !String.eqb_refl.
Qed.

(** X14.  What the tables route lists, the data route accepts: when the
    catalog has no duplicate entry, every name in the reply of the tables
    route passes the existence check of the data route, which then makes
    its fetch and does not answer 404. *)
Theorem listed_table_passes_check (db : MemDb.Database) (now : string)
    (req : Server.TablesRequest) :
  NoDup (MemDb.catalog db) ->
  exists tables,
    Async.run (Server.route_tables (MemDb.client db) now req)
    = ([Async.Queried Shared.tables_query],
       Js.Normal (Server.tables_reply now tables))
    /\ forall ref projectId query,
        In ref tables ->
        let t := Js.ToString (Data.name ref) in
        exists later reply,
          Async.run
            (Server.route_data (MemDb.client db) now
               (Server.mkDataRequest projectId t query))
          = (Async.Queried (Shared.table_check_query t) :: later,
             Js.Normal reply)
          /\ List.length later = 1%nat
          /\ Server.status reply <> 404.
Proof.
  intros Hnd.
  destruct (tables_query_answer db) as (entries & Hperm & _ & Hq).
  exists (map MemDb.entry_ref entries); split.
  - unfold Async.run, Server.route_tables, Async.try_catch, Async.bind,
      Async.await, Async.lift.
    rewrite Hq; cbn [Supabase.error Supabase.data].
    rewrite table_refs_catalog_rows; reflexivity.
  - intros ref projectId query Hin t.
    apply in_map_iff in Hin; destruct Hin as ([s n] & <- & Hin).
    apply (Permutation_in _ Hperm) in Hin.
    apply filter_In in Hin; destruct Hin as [Hin Hlisted].
    unfold MemDb.listed in Hlisted; simpl in Hlisted.
    apply andb_prop in Hlisted; destruct Hlisted as [Hs _].
    apply String.eqb_eq in Hs; subst s.
    unfold t; simpl Js.ToString.
    pose proof (check_present db n Hnd Hin) as Hcheck.
    set (r := Supabase.mkResponse (Js.Obj [("table_name", Js.Str n)])
                None None) in Hcheck.
    set (request := Server.mkDataRequest projectId n query).
    destruct (MemDb.client db
                (Shared.fetch_query (Server.tableName request)
                   (Js.mul
                      (Shared.page_of (Js.get (Server.query request) "page"))
                      (Shared.limit_of
                         (Js.get (Server.query request) "limit")))
                   (Shared.limit_of (Js.get (Server.query request) "limit"))))
      as [r2|msg] eqn:Hfetch.
    + destruct (Supabase.error r2) as [e|] eqn:He.
      * eexists [_], _; split;
          [exact (route_data_fetch_error (MemDb.client db) now request r r2
                    e Hcheck eq_refl Hfetch He)|].
        split; [reflexivity|discriminate].
      * eexists [_], _; split;
          [exact (route_data_success (MemDb.client db) now request r r2
                    Hcheck eq_refl Hfetch He)|].
        split; [reflexivity|discriminate].
    + eexists [_], _; split;
        [exact (route_data_fetch_rejected (MemDb.client db) now request r
                  msg Hcheck eq_refl Hfetch)|].
      split; [reflexivity|discriminate].
Qed.

Lemma listed_table_passes_check_witness :
  exists tables,
    Async.run
      (Server.route_tables (MemDb.client Sample.db) Sample.now
         (Server.mkTablesRequest "proj_readonly"))
    = ([Async.Queried Shared.tables_query],
       Js.Normal (Server.tables_reply Sample.now tables))
    /\ forall ref projectId query,
        In ref tables ->
        let t := Js.ToString (Data.name ref) in
        exists later reply,
          Async.run
            (Server.route_data (MemDb.client Sample.db) Sample.now
               (Server.mkDataRequest projectId t query))
          = (Async.Queried (Shared.table_check_query t) :: later,
             Js.Normal reply)
          /\ List.length later = 1%nat
          /\ Server.status reply <> 404.
Proof.
  apply (listed_table_passes_check Sample.db Sample.now
           (Server.mkTablesRequest "proj_readonly")).
  repeat (constructor;
          [simpl; intuition discriminate|]).
  constructor.
Defined.

(** ** Paging through a table *)





(** The query for the rows of a page that end below 2^53 is the paginated
    fetch of the handlers for that page. *)
Lemma page_query_is_fetch (t : string) (page : nat) (limit : Z) :
  0 < limit ->
  (Z.of_nat page + 1) * limit <= Js.two53 ->
  Shared.fetch_query t (Js.mul (Z.of_nat page) limit) limit
  = Shared.data_query t (Z.of_nat page * limit) limit.
Proof.
  intros Hl Hb.
  apply fetch_query_exact; unfold Spec.exact_window.
  assert (0 <= Z.of_nat page * limit) by nia.
  repeat split; apply Z.abs_le; nia.
Qed.


